(** * backup_script.py: archive naming, notification gate and retention pass

    A shallow embedding of [src/backup_script.py].  The script is a straight
    line of effects (create archive, upload, append to the history log,
    notify, prune), so it is modelled as a program in a small state and
    exception monad over a [World] holding the file system, the history log,
    the console and the traces of the external tools that were started.
    Everything the script only observes (the clock, exit codes, which system
    calls fail) is read from an [Env] record.

    Modelling conventions:
    - time stamps ([st_mtime], [datetime.timestamp()]) are finite doubles in
      the script; here they are exact rationals [Q] and the age of a file is
      computed exactly;
    - [pathlib.PurePosixPath] is modelled by its anchor and its list of
      components, with the parsing and joining rules of the library;
    - exceptions are the instances of Python's [Exception]; an exception
      that no handler catches ends the run. *)

From Stdlib Require Import QArith.
From Stdlib Require Import DecimalString DecimalNat.
From stdpp Require Import gmap strings list fin_maps.

Local Open Scope string_scope.
Local Open Scope Z_scope.

(** ** Strings *)

Module Str.

Definition slash : Ascii.ascii := Ascii.ascii_of_nat 47.
Definition dot : Ascii.ascii := Ascii.ascii_of_nat 46.
Definition newline : string := String (Ascii.ascii_of_nat 10) EmptyString.

(** [s.startswith("/")] *)
Definition starts_with_slash (s : string) : bool :=
  match s with
  | String c _ => Ascii.eqb c slash
  | EmptyString => false
  end.

(** [s.split("/")]: the pieces between separators; the current piece is
    accumulated in reverse in [acc]. *)
Fixpoint split_go (acc : string) (s : string) : list string :=
  match s with
  | EmptyString => [String.rev acc]
  | String c s' =>
      if Ascii.eqb c slash then String.rev acc :: split_go EmptyString s'
      else split_go (String c acc) s'
  end.

Definition split_slash (s : string) : list string := split_go EmptyString s.

(** [s.rfind(".")] as an option: index of the last dot. *)
Fixpoint rfind_dot (s : string) : option nat :=
  match s with
  | EmptyString => None
  | String c s' =>
      match rfind_dot s' with
      | Some i => Some (S i)
      | None => if Ascii.eqb c dot then Some O else None
      end
  end.

(** [s[i:]] *)
Fixpoint drop (i : nat) (s : string) : string :=
  match i, s with
  | O, _ => s
  | S i', String _ s' => drop i' s'
  | S _, EmptyString => EmptyString
  end.

(** Decimal rendering of a natural number, and [%02d]-style zero padding
    to a minimal width. *)
Definition of_nat (n : nat) : string := NilEmpty.string_of_uint (Nat.to_uint n).

Fixpoint zeros (k : nat) : string :=
  match k with
  | O => EmptyString
  | S k' => String (Ascii.ascii_of_nat 48) (zeros k')
  end.

Definition zfill (width : nat) (n : nat) : string :=
  let s := of_nat n in
  zeros (width - String.length s) ++ s.

Fixpoint join (sep : string) (l : list string) : string :=
  match l with
  | [] => EmptyString
  | [x] => x
  | x :: rest => x ++ sep ++ join sep rest
  end.

End Str.

(** ** [datetime.datetime] *)

Record DateTime := mkDateTime {
  year : nat; month : nat; day : nat;
  hour : nat; minute : nat; second : nat;
  microsecond : nat
}.

Module Fmt.
Import Str.

(** [now.strftime("%Y/%m/%d")].  [%Y] is the year in at least four digits
    and [%m], [%d], [%H], [%M], [%S] are two digit fields, as documented for
    [strftime]; the clock of a run always has a four digit year. *)
Definition strftime_date_path (t : DateTime) : string :=
  zfill 4 (year t) ++ "/" ++ zfill 2 (month t) ++ "/" ++ zfill 2 (day t).

(** [now.strftime("%Y%m%d_%H%M%S")] *)
Definition strftime_timestamp (t : DateTime) : string :=
  zfill 4 (year t) ++ zfill 2 (month t) ++ zfill 2 (day t) ++ "_" ++
  zfill 2 (hour t) ++ zfill 2 (minute t) ++ zfill 2 (second t).

(** [datetime.isoformat(sep)]: the fraction is printed only when the
    microsecond field is not zero. *)
Definition isoformat_sep (sep : string) (t : DateTime) : string :=
  zfill 4 (year t) ++ "-" ++ zfill 2 (month t) ++ "-" ++ zfill 2 (day t) ++
  sep ++
  zfill 2 (hour t) ++ ":" ++ zfill 2 (minute t) ++ ":" ++ zfill 2 (second t) ++
  (if Nat.eqb (microsecond t) 0 then "" else "." ++ zfill 6 (microsecond t)).

(** [now.isoformat()] and [str(now)] *)
Definition isoformat (t : DateTime) : string := isoformat_sep "T" t.
Definition str_datetime (t : DateTime) : string := isoformat_sep " " t.

End Fmt.

(** ** [pathlib.Path] (POSIX flavour) *)

(** The anchor of a POSIX path: relative, rooted at [/], or rooted at the
    implementation-defined [//]. *)
Inductive Anchor := Relative | Root | Root2.

Record Path := mkPath { anchor : Anchor; parts : list string }.

Module Pathlib.
Import Str.

(** [posixpath.splitroot]: one leading slash, or three and more, give the
    root [/]; exactly two give [//]. *)
Definition splitroot (s : string) : Anchor * string :=
  match s with
  | String c1 s1 =>
      if Ascii.eqb c1 slash then
        match s1 with
        | String c2 s2 =>
            if Ascii.eqb c2 slash then
              match s2 with
              | String c3 _ =>
                  if Ascii.eqb c3 slash then (Root, s1) else (Root2, s2)
              | EmptyString => (Root2, s2)
              end
            else (Root, s1)
        | EmptyString => (Root, s1)
        end
      else (Relative, s)
  | EmptyString => (Relative, s)
  end.

(** Components: the pieces between slashes that are neither empty nor [.] *)
Definition keep_part (x : string) : bool :=
  negb (String.eqb x "") && negb (String.eqb x ".").

Definition parse_parts (s : string) : list string :=
  List.filter keep_part (split_slash s).

(** [Path(s)] *)
Definition of_string (s : string) : Path :=
  let '(a, rel) := splitroot s in mkPath a (parse_parts rel).

(** [p / key]: an anchored right operand replaces the left one. *)
Definition join (p : Path) (key : string) : Path :=
  let k := of_string key in
  match anchor k with
  | Relative => mkPath (anchor p) (parts p ++ parts k)
  | _ => k
  end.

(** [p.name]: the last component, or the empty string. *)
Definition name (p : Path) : string := List.last (parts p) "".

(** [p.suffix]: from the last dot of the name on, unless that dot is the
    first or the last character of the name. *)
Definition suffix (p : Path) : string :=
  let n := name p in
  match rfind_dot n with
  | Some i =>
      if (0 <? i)%nat && (i <? String.length n - 1)%nat then drop i n else ""
  | None => ""
  end.

(** [str(p)] *)
Definition anchor_str (a : Anchor) : string :=
  match a with Relative => "" | Root => "/" | Root2 => "//" end.

Definition str (p : Path) : string :=
  match anchor p, parts p with
  | Relative, [] => "."
  | a, ps => anchor_str a ++ Str.join "/" ps
  end.

(** A file lies under a directory when the directory's components are a
    proper prefix of the file's, below the same anchor. *)
Fixpoint list_string_prefixb (l1 l2 : list string) : bool :=
  match l1, l2 with
  | [], _ => true
  | x :: l1', y :: l2' => String.eqb x y && list_string_prefixb l1' l2'
  | _ :: _, [] => false
  end.

Definition anchor_eqb (a b : Anchor) : bool :=
  match a, b with
  | Relative, Relative | Root, Root | Root2, Root2 => true
  | _, _ => false
  end.

Definition is_under (top : Path) (p : Path) : bool :=
  anchor_eqb (anchor top) (anchor p)
  && list_string_prefixb (parts top) (parts p)
  && (length (parts top) <? length (parts p))%nat.

End Pathlib.

(** Paths are the keys of the file system map. *)
Global Instance Anchor_eq_dec : EqDecision Anchor.
Proof. solve_decision. Defined.

Global Instance Path_eq_dec : EqDecision Path.
Proof. solve_decision. Defined.

Definition anchor_code (a : Anchor) : nat :=
  match a with Relative => 0%nat | Root => 1%nat | Root2 => 2%nat end.

Definition anchor_of_code (n : nat) : Anchor :=
  match n with O => Relative | S O => Root | _ => Root2 end.

Global Instance Path_countable : Countable Path.
Proof.
  refine (inj_countable' (fun p => (anchor_code (anchor p), parts p))
            (fun c => mkPath (anchor_of_code c.1) c.2) _).
  intros [[] ps]; reflexivity.
Defined.

(** ** Configuration (lines 16-28) *)

(** The process environment after [load_dotenv].  The three retention
    variables hold the integer that [int()] reads from them. *)
Record Environ := mkEnviron {
  env_PROJECT_NAME : option string;
  env_BACKUP_DIR : option string;
  env_RETENTION_DAYS : option Z;
  env_RETENTION_WEEKS : option Z;
  env_RETENTION_MONTHS : option Z;
  env_RCLONE_REMOTE : option string;
  env_RCLONE_FOLDER : option string;
  env_NOTIFY : option string
}.

Record Config := mkConfig {
  PROJECT_NAME : option string;
  BACKUP_DIR : option string;
  RETENTION_DAYS : Z;
  RETENTION_WEEKS : Z;
  RETENTION_MONTHS : Z;
  RCLONE_REMOTE : option string;
  RCLONE_FOLDER : option string;
  NOTIFY : bool
}.

(** [os.getenv(key, default)] *)
Definition getenv {A} (v : option A) (dflt : A) : A :=
  match v with Some x => x | None => dflt end.

(** [str.lower()] on the letters that matter for the comparison with
    ["true"]: the ASCII capitals. *)
Definition lower_ascii (c : Ascii.ascii) : Ascii.ascii :=
  let n := Ascii.nat_of_ascii c in
  if (65 <=? n)%nat && (n <=? 90)%nat then Ascii.ascii_of_nat (n + 32) else c.

Fixpoint lower (s : string) : string :=
  match s with
  | EmptyString => EmptyString
  | String c s' => String (lower_ascii c) (lower s')
  end.

Definition load_config (e : Environ) : Config :=
  {| PROJECT_NAME := env_PROJECT_NAME e;
     BACKUP_DIR := env_BACKUP_DIR e;
     RETENTION_DAYS := getenv (env_RETENTION_DAYS e) 7;
     RETENTION_WEEKS := getenv (env_RETENTION_WEEKS e) 4;
     RETENTION_MONTHS := getenv (env_RETENTION_MONTHS e) 3;
     RCLONE_REMOTE := env_RCLONE_REMOTE e;
     RCLONE_FOLDER := env_RCLONE_FOLDER e;
     NOTIFY := String.eqb (lower (getenv (env_NOTIFY e) "true")) "true" |}.

(** An f-string field holding the result of [os.getenv]: [None] prints as
    the word None. *)
Definition fstr (v : option string) : string :=
  match v with Some s => s | None => "None" end.

(** ** Artifact naming (lines 31-36) *)

Definition zip_name (project : option string) (now : DateTime) : string :=
  fstr project ++ "_" ++ Fmt.strftime_timestamp now ++ ".zip".

Definition zip_dir (backup_dir : string) (now : DateTime) : Path :=
  Pathlib.join (Pathlib.of_string backup_dir) (Fmt.strftime_date_path now).

Definition zip_path (backup_dir : string) (project : option string)
    (now : DateTime) : Path :=
  Pathlib.join (zip_dir backup_dir now) (zip_name project now).

(** ** Retention horizon (line 98) *)

(** Python's [max(a, b, c)]: a left-to-right scan that keeps the first
    largest argument. *)
Definition py_max (first : Z) (rest : list Z) : Z :=
  fold_left (fun best x => if best <? x then x else best) rest first.

Definition max_age_days (cfg : Config) : Z :=
  py_max (RETENTION_DAYS cfg) [RETENTION_WEEKS cfg * 7; RETENTION_MONTHS cfg * 30].

(** The horizon as the specification writes it. *)
Definition cutoff_days_spec (d w m : Z) : Z := Z.max d (Z.max (7 * w) (30 * m)).

(** ** The world and its environment *)

(** A raised exception, with the text [str(e)] prints. *)
Record Exn := mkExn { exn_str : string }.

(** The [payload] dictionary of lines 63-67. *)
Record Payload := mkPayload {
  payload_project : option string;
  payload_date : string;
  payload_status : string
}.

(** What the script observes of the outside during one invocation. *)
Record Env := mkEnv {
  clock_now : DateTime;                 (* datetime.datetime.now(), line 31 *)
  makedirs_raises : option Exn;         (* os.makedirs, line 39 *)
  archive_raises : option Exn;          (* writing the archive, lines 43-48 *)
  archive_mtime : Q;                    (* st_mtime of the finished archive *)
  rclone_exit : Z;                      (* exit status of rclone, line 53 *)
  log_raises : nat -> option Exn;       (* fate of the n-th append to LOG_FILE *)
  curl_raises : option Exn;             (* subprocess.run, line 69 *)
  retention_now_ts : Q;                 (* datetime.now().timestamp(), line 81 *)
  unlink_raises : Path -> option Exn;   (* file_path.unlink(), line 90 *)
  delete_clock : Path -> DateTime       (* datetime.datetime.now(), line 92 *)
}.

(** What the script changes. *)
Record World := mkWorld {
  fs : gmap Path Q;                     (* regular files, with their st_mtime *)
  log_file : list string;               (* lines appended to LOG_FILE *)
  log_attempts : nat;                   (* appends attempted so far *)
  stdout : list string;                 (* lines printed *)
  rclone_calls : list (string * Z);     (* upload commands run, with exit status *)
  curl_calls : list Payload;            (* payloads handed to curl *)
  unlink_calls : list Path              (* paths on which unlink was called *)
}.

Definition initial_world (files : gmap Path Q) : World :=
  mkWorld files [] 0%nat [] [] [] [].

(** ** State and exception monad *)

Inductive Res (A : Type) := Ok (a : A) | Raised (e : Exn).
Arguments Ok {A} a.
Arguments Raised {A} e.

Definition M (A : Type) : Type := World -> Res A * World.

Definition ret {A} (a : A) : M A := fun w => (Ok a, w).

Definition bind {A B} (c : M A) (k : A -> M B) : M B :=
  fun w => match c w with
           | (Ok a, w') => k a w'
           | (Raised e, w') => (Raised e, w')
           end.

Definition raise {A} (e : Exn) : M A := fun w => (Raised e, w).

(** [try: body / except Exception as e: handler e]; the effects of the part
    of [body] that ran stay. *)
Definition try_except (body : M unit) (handler : Exn -> M unit) : M unit :=
  fun w => match body w with
           | (Ok tt, w') => (Ok tt, w')
           | (Raised e, w') => handler e w'
           end.

Declare Scope py_scope.
Delimit Scope py_scope with py.
Notation "'let*' x ':=' c 'in' k" := (bind c (fun x => k))
  (at level 10, x name, c at level 100, k at level 200) : py_scope.
Notation "c '>>' k" := (bind c (fun _ => k))
  (at level 60, right associativity) : py_scope.
Local Open Scope py_scope.

(** [for x in l: body x] *)
Fixpoint for_each {A} (l : list A) (body : A -> M unit) : M unit :=
  match l with
  | [] => ret tt
  | x :: l' => body x >> for_each l' body
  end.

(** ** The script *)

Section Script.

Variable env : Env.

(** *** System calls and external tools *)

Definition print (line : string) : M unit :=
  fun w => (Ok tt, mkWorld (fs w) (log_file w) (log_attempts w)
                     (stdout w ++ [line]) (rclone_calls w) (curl_calls w)
                     (unlink_calls w)).

Definition set_fs (files : gmap Path Q) (w : World) : World :=
  mkWorld files (log_file w) (log_attempts w) (stdout w) (rclone_calls w)
          (curl_calls w) (unlink_calls w).

(** [os.makedirs(zip_dir, exist_ok=True)]: directories are not part of the
    file map, so only a failure is visible. *)
Definition makedirs (d : Path) : M unit :=
  match makedirs_raises env with
  | Some e => raise e
  | None => ret tt
  end.

(** Lines 43-48: the archive is written at [p]. *)
Definition create_archive (p : Path) : M unit :=
  match archive_raises env with
  | Some e => raise e
  | None => fun w => (Ok tt, set_fs (<[p := archive_mtime env]> (fs w)) w)
  end.

(** [subprocess.call(cmd, shell=True)] *)
Definition subprocess_call (cmd : string) : M Z :=
  fun w => (Ok (rclone_exit env),
            mkWorld (fs w) (log_file w) (log_attempts w) (stdout w)
                    (rclone_calls w ++ [(cmd, rclone_exit env)])
                    (curl_calls w) (unlink_calls w)).

(** [with open(LOG_FILE, "a") as log: log.write(line)] *)
Definition append_log (line : string) : M unit :=
  fun w =>
    let n := log_attempts w in
    match log_raises env n with
    | Some e =>
        (Raised e, mkWorld (fs w) (log_file w) (S n) (stdout w)
                           (rclone_calls w) (curl_calls w) (unlink_calls w))
    | None =>
        (Ok tt, mkWorld (fs w) (log_file w ++ [line]) (S n) (stdout w)
                        (rclone_calls w) (curl_calls w) (unlink_calls w))
    end.

(** [subprocess.run(["curl", "-X", "POST", ..., "-d", json.dumps(payload),
    WEBHOOK_URL])] *)
Definition subprocess_run_curl (payload : Payload) : M unit :=
  fun w =>
    let w' := mkWorld (fs w) (log_file w) (log_attempts w) (stdout w)
                      (rclone_calls w) (curl_calls w ++ [payload])
                      (unlink_calls w) in
    match curl_raises env with
    | Some e => (Raised e, w')
    | None => (Ok tt, w')
    end.

Definition no_such_file (p : Path) : Exn :=
  mkExn ("[Errno 2] No such file or directory: '" ++ Pathlib.str p ++ "'").

(** [file_path.stat().st_mtime] *)
Definition stat_mtime (p : Path) : M Q :=
  fun w => match fs w !! p with
           | Some m => (Ok m, w)
           | None => (Raised (no_such_file p), w)
           end.

(** [file_path.unlink()] *)
Definition unlink (p : Path) : M unit :=
  fun w =>
    let w' := mkWorld (fs w) (log_file w) (log_attempts w) (stdout w)
                      (rclone_calls w) (curl_calls w) (unlink_calls w ++ [p]) in
    match unlink_raises env p with
    | Some e => (Raised e, w')
    | None =>
        match fs w !! p with
        | Some _ => (Ok tt, set_fs (delete p (fs w)) w')
        | None => (Raised (no_such_file p), w')
        end
    end.

(** [os.walk(path)] together with [Path(dirpath) / file]: the paths of the
    regular files below [path].  The order of a directory listing is not
    specified; the listing of a given file map is taken in the order of the
    map.  Removing a file does not change what is listed later, since each
    file is listed once and only the current file is removed. *)
Definition walk_files (top : string) (files : gmap Path Q) : list Path :=
  filter (fun p => Is_true (Pathlib.is_under (Pathlib.of_string top) p))
         (map_to_list files).*1.

Definition os_walk (top : string) : M (list Path) :=
  fun w => (Ok (walk_files top (fs w)), w).

(** *** Retention cleanup (lines 80-95) *)

Definition Qgtb (x y : Q) : bool := negb (Qle_bool x y).

(** The body of the inner loop, lines 84-95. *)
Definition retention_step (now_ts : Q) (max_days : Z) (file_path : Path) : M unit :=
  if negb (String.eqb (Pathlib.suffix file_path) ".zip") then ret tt
  else
    let* st_mtime := stat_mtime file_path in
    let age_days := ((now_ts - st_mtime) / (3600 * 24))%Q in
    if Qgtb age_days (inject_Z max_days) then
      try_except
        (unlink file_path >>
         append_log (Fmt.str_datetime (delete_clock env file_path) ++ " | Deleted: "
                     ++ Pathlib.name file_path ++ Str.newline) >>
         print ("[INFO] Deleted old backup: " ++ Pathlib.str file_path))
        (fun e => print ("[ERROR] Could not delete " ++ Pathlib.str file_path
                         ++ ": " ++ exn_str e))
    else ret tt.

Definition delete_old_files (path : string) (max_days : Z) : M unit :=
  let now_ts := retention_now_ts env in
  let* files := os_walk path in
  for_each files (retention_step now_ts max_days).

(** *** The run (lines 31-99) *)

Definition type_error : Exn :=
  mkExn "expected str, bytes or os.PathLike object, not NoneType".

Definition main (cfg : Config) : M unit :=
  let now := clock_now env in
  match BACKUP_DIR cfg with
  | None => raise type_error
  | Some backup_dir =>
      let zip_dir := zip_dir backup_dir now in
      let zip_path := zip_path backup_dir (PROJECT_NAME cfg) now in
      makedirs zip_dir >>
      print ("[INFO] Creating backup: " ++ Pathlib.str zip_path) >>
      create_archive zip_path >>
      let upload_cmd := "rclone copy '" ++ Pathlib.str zip_path ++ "' "
                        ++ fstr (RCLONE_REMOTE cfg) ++ ":" ++ fstr (RCLONE_FOLDER cfg) in
      print "[INFO] Uploading to Google Drive using rclone..." >>
      let* upload_status := subprocess_call upload_cmd in
      let status_text := if upload_status =? 0 then "Success" else "Failed" in
      let log_entry := Fmt.str_datetime now ++ " | Backup: " ++ Pathlib.name zip_path
                       ++ " | Upload: " ++ status_text ++ Str.newline in
      append_log log_entry >>
      (if NOTIFY cfg && (upload_status =? 0) then
         let payload := {| payload_project := PROJECT_NAME cfg;
                           payload_date := Fmt.isoformat now;
                           payload_status := "BackupSuccessful" |} in
         try_except
           (subprocess_run_curl payload >>
            print "[INFO] Webhook notification sent.")
           (fun e => print ("[ERROR] Failed to send webhook: " ++ exn_str e))
       else ret tt) >>
      let max_age_days := max_age_days cfg in
      delete_old_files backup_dir max_age_days
  end.

End Script.

(** ** Vocabulary of the properties *)

Local Close Scope string_scope.

(** The age the retention loop computes for a file modified at [st_mtime]. *)
Definition age_days (now_ts st_mtime : Q) : Q := ((now_ts - st_mtime) / (3600 * 24))%Q.

Definition is_zip (p : Path) : bool := String.eqb (Pathlib.suffix p) ".zip"%string.

(** A deletion candidate: an archive whose age exceeds the horizon. *)
Definition is_candidate (now_ts : Q) (max_days : Z) (p : Path) (st_mtime : Q) : bool :=
  is_zip p && Qgtb (age_days now_ts st_mtime) (inject_Z max_days).

Definition unlink_ok (env : Env) (p : Path) : bool :=
  match unlink_raises env p with None => true | Some _ => false end.

Definition candidate_in (now_ts : Q) (max_days : Z) (files : gmap Path Q) (p : Path) : bool :=
  match files !! p with
  | Some m => is_candidate now_ts max_days p m
  | None => false
  end.

Definition under (top : string) (p : Path) : bool :=
  Pathlib.is_under (Pathlib.of_string top) p.

(** Characters that are neither the separator nor a dot. *)
Definition plain_char (c : Ascii.ascii) : bool :=
  negb (Ascii.eqb c Str.slash) && negb (Ascii.eqb c Str.dot).

Fixpoint all_plain (s : string) : bool :=
  match s with
  | EmptyString => true
  | String c s' => plain_char c && all_plain s'
  end.

Fixpoint no_slash (s : string) : bool :=
  match s with
  | EmptyString => true
  | String c s' => negb (Ascii.eqb c Str.slash) && no_slash s'
  end.

(** The payload a run hands to curl (lines 63-67). *)
Definition notification (env : Env) (cfg : Config) : Payload :=
  {| payload_project := PROJECT_NAME cfg;
     payload_date := Fmt.isoformat (clock_now env);
     payload_status := "BackupSuccessful" |}.



(** ** Fixtures: a backup directory with four archives *)

Module Scenario.

Local Open Scope string_scope.

Definition now : DateTime := mkDateTime 2024 3 5 14 30 0 0.

(** The reading of the clock when the retention pass starts. *)
Definition now_ts : Q := 1709649000.

Definition days_ago (d : Z) : Q := (now_ts - inject_Z d * 86400)%Q.

Definition file_1 : Path :=
  Pathlib.of_string "/backups/2024/03/04/site_20240304_143000.zip".
Definition file_8 : Path :=
  Pathlib.of_string "/backups/2024/02/26/site_20240226_143000.zip".
Definition file_35 : Path :=
  Pathlib.of_string "/backups/2024/01/30/site_20240130_143000.zip".
Definition file_100 : Path :=
  Pathlib.of_string "/backups/2023/11/26/site_20231126_143000.zip".

Definition files : gmap Path Q :=
  list_to_map [(file_1, days_ago 1); (file_8, days_ago 8);
               (file_35, days_ago 35); (file_100, days_ago 100)].

(** Nothing set but the directories: the retention windows take their
    defaults. *)
Definition environ : Environ :=
  mkEnviron (Some "site") (Some "/backups") None None None None None None.

Definition cfg : Config := load_config environ.

(** An invocation in which every system call succeeds. *)
Definition calm : Env :=
  mkEnv now None None now_ts 0 (fun _ => None) None now_ts
        (fun _ => None) (fun _ => now).

End Scenario.

(** ** Fixtures: invocations with failures *)

Module Faults.

Definition permission_denied : Exn := mkExn "[Errno 13] Permission denied".

(** The history log cannot be written. *)
Definition log_unwritable : Env :=
  mkEnv Scenario.now None None Scenario.now_ts 0
        (fun _ => Some permission_denied) None Scenario.now_ts
        (fun _ => None) (fun _ => Scenario.now).

(** The same clock reading one second later. *)
Definition one_second_later : Env :=
  mkEnv Scenario.now None None Scenario.now_ts 0 (fun _ => None) None
        (Scenario.now_ts + 1)%Q (fun _ => None) (fun _ => Scenario.now).

(** An archive that is exactly as old as the default horizon. *)
Definition file_90 : Path :=
  Pathlib.of_string "/backups/2023/12/06/site_20231206_143000.zip".

Definition borderline : gmap Path Q := {[ file_90 := Scenario.days_ago 90 ]}.

(** Two archives written at the same instant whose names carry unrelated
    time stamps. *)
Definition named_old : Path :=
  Pathlib.of_string "/backups/2024/03/04/site_19990101_000000.zip".
Definition named_new : Path :=
  Pathlib.of_string "/backups/2024/03/04/site_20991231_235959.zip".

Definition twins : gmap Path Q :=
  {[ named_old := Scenario.days_ago 100; named_new := Scenario.days_ago 100 ]}.

End Faults.

(** ** Further vocabulary *)

(** The line of the history log that records a deletion (line 92). *)
Definition deleted_line (env : Env) (p : Path) : string :=
  (Fmt.str_datetime (delete_clock env p) ++ " | Deleted: "
   ++ Pathlib.name p ++ Str.newline)%string.


(** The two lines the retention loop can print for a file. *)
Definition info_deleted (p : Path) : string :=
  ("[INFO] Deleted old backup: " ++ Pathlib.str p)%string.

Definition error_not_deleted (p : Path) (e : Exn) : string :=
  ("[ERROR] Could not delete " ++ Pathlib.str p ++ ": " ++ exn_str e)%string.

Definition log_ok (env : Env) (n : nat) : bool :=
  match log_raises env n with None => true | Some _ => false end.

(** The files of a listing whose deletion reaches the history log, when
    [n] appends have been attempted before: the candidates that are
    unlinked and whose append does not raise. *)
Fixpoint logged (env : Env) (now_ts : Q) (max_days : Z) (files : gmap Path Q)
    (n : nat) (l : list Path) : list Path :=
  match l with
  | [] => []
  | p :: l' =>
      if candidate_in now_ts max_days files p && unlink_ok env p then
        if log_ok env n then p :: logged env now_ts max_days files (S n) l'
        else logged env now_ts max_days files (S n) l'
      else logged env now_ts max_days files n l'
  end.

(** The lines the retention loop prints for a listing, when [n] appends
    have been attempted before: one line for each candidate. *)
Fixpoint printed (env : Env) (now_ts : Q) (max_days : Z) (files : gmap Path Q)
    (n : nat) (l : list Path) : list string :=
  match l with
  | [] => []
  | p :: l' =>
      if candidate_in now_ts max_days files p then
        match unlink_raises env p with
        | Some e => error_not_deleted p e :: printed env now_ts max_days files n l'
        | None =>
            match log_raises env n with
            | Some e => error_not_deleted p e :: printed env now_ts max_days files (S n) l'
            | None => info_deleted p :: printed env now_ts max_days files (S n) l'
            end
        end
      else printed env now_ts max_days files n l'
  end.

(** Replacing the outcome of the upload and of the notification. *)
Definition with_upload_outcome (exit : Z) (curl : option Exn) (env : Env) : Env :=
  mkEnv (clock_now env) (makedirs_raises env) (archive_raises env) (archive_mtime env)
        exit (log_raises env) curl (retention_now_ts env)
        (unlink_raises env) (delete_clock env).

Definition with_NOTIFY (notify : bool) (cfg : Config) : Config :=
  mkConfig (PROJECT_NAME cfg) (BACKUP_DIR cfg) (RETENTION_DAYS cfg)
           (RETENTION_WEEKS cfg) (RETENTION_MONTHS cfg) (RCLONE_REMOTE cfg)
           (RCLONE_FOLDER cfg) notify.

(** Reading a decimal numeral back, as [int(s)] does on a string of digits. *)
Definition parse_decimal (s : string) : option nat :=
  option_map Nat.of_uint (NilEmpty.uint_of_string s).

(** The fields of a [datetime] lie in these ranges. *)
Definition valid_clock (t : DateTime) : Prop :=
  Z.of_nat (year t) <= 9999 /\ (month t <= 12)%nat /\ (day t <= 31)%nat
  /\ (hour t <= 23)%nat /\ (minute t <= 59)%nat /\ (second t <= 59)%nat.

(** What remains of a name after its last slash. *)
Definition base_name (s : string) : string := List.last (Str.split_slash s) ""%string.

(** The components a parsed path can have. *)
Definition proper_part (x : string) : Prop :=
  Pathlib.keep_part x = true /\ no_slash x = true.

Definition proper_path (p : Path) : Prop := Forall proper_part (parts p).

(** A letter of the word true, in either case; [code] is the code of the
    small letter. *)
Definition letter (code : nat) (c : Ascii.ascii) : Prop :=
  Ascii.nat_of_ascii c = code \/ (Ascii.nat_of_ascii c + 32 = code)%nat.

(** ** Writing the archive (lines 43-48) *)

(** [os.path] for POSIX. *)
Module Posixpath.

Local Open Scope string_scope.

Fixpoint ends_with_slash (s : string) : bool :=
  match s with
  | EmptyString => false
  | String c EmptyString => Ascii.eqb c Str.slash
  | String _ s' => ends_with_slash s'
  end.

(** [os.path.join(a, b)] *)
Definition join (a b : string) : string :=
  if Str.starts_with_slash b then b
  else if String.eqb a "" || ends_with_slash a then a ++ b
  else a ++ "/" ++ b.

(** The number of leading slashes [normpath] keeps: two when the path
    begins with exactly two, else one or none. *)
Definition initial_slashes (path : string) : nat :=
  match path with
  | String c1 s1 =>
      if Ascii.eqb c1 Str.slash then
        match s1 with
        | String c2 s2 =>
            if Ascii.eqb c2 Str.slash then
              match s2 with
              | String c3 _ => if Ascii.eqb c3 Str.slash then 1%nat else 2%nat
              | EmptyString => 2%nat
              end
            else 1%nat
        | EmptyString => 1%nat
        end
      else 0%nat
  | EmptyString => 0%nat
  end.

(** One round of the loop of [normpath] over the pieces of the path. *)
Definition norm_step (initial : nat) (new_comps : list string) (comp : string)
    : list string :=
  if String.eqb comp "" || String.eqb comp "." then new_comps
  else if negb (String.eqb comp "..")
          || (Nat.eqb initial 0 && match new_comps with [] => true | _ => false end)
          || match new_comps with
             | [] => false
             | _ => String.eqb (List.last new_comps "") ".."
             end
       then (new_comps ++ [comp])%list
       else match new_comps with
            | [] => new_comps
            | _ => List.removelast new_comps
            end.

Definition norm_comps (path : string) : list string :=
  fold_left (norm_step (initial_slashes path)) (Str.split_slash path) [].

Fixpoint slashes (k : nat) : string :=
  match k with
  | O => ""
  | S k' => String Str.slash (slashes k')
  end.

(** [os.path.normpath(path)] *)
Definition normpath (path : string) : string :=
  if String.eqb path "" then "."
  else
    let p := slashes (initial_slashes path) ++ Str.join "/" (norm_comps path) in
    if String.eqb p "" then "." else p.

(** [os.path.abspath(path)], with [cwd] the result of [os.getcwd()]. *)
Definition abspath (cwd path : string) : string :=
  normpath (if Str.starts_with_slash path then path else join cwd path).

(** [[x for x in s.split("/") if x]] *)
Definition pieces (s : string) : list string :=
  List.filter (fun x => negb (String.eqb x "")) (Str.split_slash s).

(** The length of the longest common prefix, as [commonprefix] finds it
    for two lists. *)
Fixpoint common_prefix_len (l1 l2 : list string) : nat :=
  match l1, l2 with
  | x :: l1', y :: l2' => if String.eqb x y then S (common_prefix_len l1' l2') else O
  | _, _ => O
  end.

(** [os.path.join] applied to the elements of a list. *)
Definition join_all (l : list string) : string :=
  match l with
  | [] => ""
  | x :: rest => fold_left join rest x
  end.

End Posixpath.

Definition no_path_specified : Exn := mkExn "no path specified".

(** [os.path.relpath(path, start)]: a [ValueError] for an empty path. *)
Definition relpath (cwd path start : string) : Res string :=
  if String.eqb path "" then Raised no_path_specified
  else
    let start_list := Posixpath.pieces (Posixpath.abspath cwd start) in
    let path_list := Posixpath.pieces (Posixpath.abspath cwd path) in
    let i := Posixpath.common_prefix_len start_list path_list in
    let rel_list :=
      (repeat ".."%string (length start_list - i) ++ skipn i path_list)%list in
    match rel_list with
    | [] => Ok "."%string
    | _ => Ok (Posixpath.join_all rel_list)
    end.

(** The content of a directory, in the order of its listing: files, and
    directories with their own content. *)
Inductive Entries :=
| ENil
| EFile (name : string) (rest : Entries)
| EDir (name : string) (content : Entries) (rest : Entries).

Fixpoint file_names (d : Entries) : list string :=
  match d with
  | ENil => []
  | EFile name rest => name :: file_names rest
  | EDir _ _ rest => file_names rest
  end.

(** [os.walk(top)] below the top directory: each directory of the listing
    is visited, with its files, before the next one of the same level. *)
Fixpoint walk_below (top : string) (d : Entries) : list (string * list string) :=
  match d with
  | ENil => []
  | EFile _ rest => walk_below top rest
  | EDir name content rest =>
      ((Posixpath.join top name, file_names content)
         :: walk_below (Posixpath.join top name) content)
      ++ walk_below top rest
  end.

(** [os.walk(top)]; nothing is yielded when [top] is not a directory. *)
Definition walk_tree (top : string) (tree : option Entries)
    : list (string * list string) :=
  match tree with
  | None => []
  | Some d => (top, file_names d) :: walk_below top d
  end.

(** The inner loop, lines 45-48: the pairs handed to [zipf.write]. *)
Fixpoint archive_files (cwd source_dir root : string) (files : list string)
    : Res (list (string * string)) :=
  match files with
  | [] => Ok []
  | file :: rest =>
      let full_path := Posixpath.join root file in
      match relpath cwd full_path source_dir with
      | Raised e => Raised e
      | Ok arcname =>
          match archive_files cwd source_dir root rest with
          | Raised e => Raised e
          | Ok l => Ok ((full_path, arcname) :: l)
          end
      end
  end.

(** The outer loop, line 44. *)
Fixpoint archive_dirs (cwd source_dir : string) (listing : list (string * list string))
    : Res (list (string * string)) :=
  match listing with
  | [] => Ok []
  | (root, files) :: rest =>
      match archive_files cwd source_dir root files with
      | Raised e => Raised e
      | Ok l =>
          match archive_dirs cwd source_dir rest with
          | Raised e => Raised e
          | Ok l' => Ok (l ++ l')
          end
      end
  end.

(** Lines 43-48: what the run writes into the archive, as pairs of the file
    read and the name it gets; [SOURCE_DIR] not set is a [TypeError]. *)
Definition archive_entries (cwd : string) (source_dir : option string)
    (tree : option Entries) : Res (list (string * string)) :=
  match source_dir with
  | None => Raised type_error
  | Some sd => archive_dirs cwd sd (walk_tree sd tree)
  end.

(** [ZipInfo.from_file]: the name stored for [arcname] is its normal form
    without leading slashes. *)
Fixpoint lstrip_slash (s : string) : string :=
  match s with
  | String c s' => if Ascii.eqb c Str.slash then lstrip_slash s' else s
  | EmptyString => s
  end.

Definition stored_name (arcname : string) : string :=
  lstrip_slash (Posixpath.normpath arcname).

(** The pieces [normpath] keeps are not empty and hold no slash. *)
Definition piece_ok (x : string) : Prop := x <> ""%string /\ no_slash x = true.

(** [a], a slash unless [a] already ends with one, and [x]. *)
Definition sep_app (a x : string) : string :=
  (if Posixpath.ends_with_slash a then a ++ x else a ++ "/" ++ x)%string.

(** The text that [abspath] normalises. *)
Definition anchored (cwd path : string) : string :=
  if Str.starts_with_slash path then path else Posixpath.join cwd path.

(** The names of files and directories in a listing: not empty, without
    slash, and neither [.] nor [..]. *)
Definition proper_name (x : string) : Prop :=
  Pathlib.keep_part x = true /\ no_slash x = true /\ x <> ".."%string.

Fixpoint proper_tree (d : Entries) : Prop :=
  match d with
  | ENil => True
  | EFile name rest => proper_name name /\ proper_tree rest
  | EDir name content rest => proper_name name /\ proper_tree content /\ proper_tree rest
  end.

(** The files of a tree by their names relative to its top, in the order
    in which the walk meets them. *)
Fixpoint below_files (d : Entries) : list (list string) :=
  match d with
  | ENil => []
  | EFile _ rest => below_files rest
  | EDir name content rest =>
      (map (fun f => [name; f]) (file_names content)
       ++ map (cons name) (below_files content))
      ++ below_files rest
  end.

Definition tree_files (d : Entries) : list (list string) :=
  map (fun f => [f]) (file_names d) ++ below_files d.

(** A source tree: two files at the top, a directory with a file and a
    directory without one. *)
Definition sample_tree : Entries :=
  EFile "index.html"
    (EDir "css" (EFile "site.css" ENil)
       (EDir "empty" ENil
          (EFile "app.py" ENil))).

(** ** Fixtures: edge cases *)

Module Edge.



(** A later run of the same project. *)
Definition next_day : DateTime := mkDateTime 2024 3 6 2 0 0 0.

End Edge.

(** * Properties *)

(** ** The library functions on examples *)

Example of_string_abs :
  Pathlib.of_string "/backups//x/./y" = mkPath Root ["backups"; "x"; "y"].
Proof. reflexivity. Qed.

Example suffix_zip :
  Pathlib.suffix (Pathlib.join (Pathlib.of_string "/b/2024") "site_1.zip") = ".zip".
Proof. reflexivity. Qed.

Example suffix_hidden : Pathlib.suffix (Pathlib.of_string "/b/.zip") = "".
Proof. reflexivity. Qed.

Example zfill_5 : Str.zfill 2 5 = "05".
Proof. reflexivity. Qed.

(** ** Arithmetic of ages *)

Lemma Qgtb_lt x y : Qgtb x y = true <-> (y < x)%Q.
Proof.
  unfold Qgtb. rewrite negb_true_iff.
  split.
  - intros H. apply Qnot_le_lt. intros Hle.
    apply Qle_bool_iff in Hle. congruence.
  - intros H. destruct (Qle_bool x y) eqn:E; [|reflexivity].
    apply Qle_bool_iff in E. exfalso. exact (Qlt_not_le _ _ H E).
Qed.

Lemma Qgtb_le x y : Qgtb x y = false <-> (x <= y)%Q.
Proof.
  unfold Qgtb. rewrite negb_false_iff. apply Qle_bool_iff.
Qed.

Lemma age_days_compat now_ts m1 m2 :
  (m1 == m2)%Q -> (age_days now_ts m1 == age_days now_ts m2)%Q.
Proof. intros H. unfold age_days. rewrite H. reflexivity. Qed.

Lemma Qgtb_compat x1 x2 y : (x1 == x2)%Q -> Qgtb x1 y = Qgtb x2 y.
Proof.
  intros H. destruct (Qgtb x2 y) eqn:E.
  - apply Qgtb_lt. apply Qgtb_lt in E. rewrite H. exact E.
  - apply Qgtb_le. apply Qgtb_le in E. rewrite H. exact E.
Qed.

Lemma is_candidate_compat now_ts c p1 p2 m1 m2 :
  is_zip p1 = is_zip p2 -> (m1 == m2)%Q ->
  is_candidate now_ts c p1 m1 = is_candidate now_ts c p2 m2.
Proof.
  intros Hz Hm. unfold is_candidate. rewrite Hz.
  f_equal. apply Qgtb_compat, age_days_compat, Hm.
Qed.

(** ** One iteration of the retention loop *)

Section RetentionStep.

Variable env : Env.
Variables (now_ts : Q) (max_days : Z).

Lemma retention_step_not_zip p w :
  is_zip p = false -> retention_step env now_ts max_days p w = (Ok tt, w).
Proof.
  intros Hz. unfold retention_step, is_zip in *. rewrite Hz. reflexivity.
Qed.

Lemma retention_step_keep p m w :
  fs w !! p = Some m -> is_candidate now_ts max_days p m = false ->
  retention_step env now_ts max_days p w = (Ok tt, w).
Proof.
  intros Hm Hc. destruct (is_zip p) eqn:Hz.
  - unfold is_candidate in Hc. rewrite Hz in Hc. simpl in Hc.
    unfold retention_step, is_zip, age_days in *.
    rewrite Hz. simpl. unfold bind, stat_mtime. rewrite Hm, Hc. reflexivity.
  - by apply retention_step_not_zip.
Qed.

(** A candidate is unlinked inside the handler: whatever fails, the
    iteration ends normally. *)
Lemma retention_step_candidate p m w :
  fs w !! p = Some m -> is_candidate now_ts max_days p m = true ->
  exists w', retention_step env now_ts max_days p w = (Ok tt, w')
    /\ fs w' = (if unlink_ok env p then delete p (fs w) else fs w)
    /\ unlink_calls w' = unlink_calls w ++ [p]
    /\ curl_calls w' = curl_calls w
    /\ rclone_calls w' = rclone_calls w.
Proof.
  intros Hm Hc. unfold is_candidate in Hc. apply andb_true_iff in Hc as [Hz Hold].
  unfold retention_step, is_zip, age_days, unlink_ok in *.
  rewrite Hz. simpl. unfold bind at 1. unfold stat_mtime at 1. rewrite Hm, Hold.
  unfold try_except, bind, unlink, append_log, print. simpl.
  destruct (unlink_raises env p) as [e|]; simpl.
  - eexists; split; [reflexivity|]. simpl. auto.
  - rewrite Hm. simpl.
    destruct (log_raises env (log_attempts w)) as [e|]; simpl;
      (eexists; split; [reflexivity|]); simpl; auto.
Qed.

End RetentionStep.

(** ** The retention loop *)

Lemma filter_ext_elem {A} (P1 P2 : A -> Prop)
    `{forall x, Decision (P1 x)} `{forall x, Decision (P2 x)} (l : list A) :
  (forall x, x ∈ l -> (P1 x <-> P2 x)) -> filter P1 l = filter P2 l.
Proof.
  induction l as [|x l IH]; intros Hext; [reflexivity|].
  rewrite !filter_cons.
  assert (Hx : P1 x <-> P2 x) by (apply Hext; left).
  rewrite IH by (intros y Hy; apply Hext; by right).
  destruct (decide (P1 x)), (decide (P2 x)); tauto.
Qed.

Section RetentionLoop.

Variable env : Env.
Variables (now_ts : Q) (max_days : Z).

Let step := retention_step env now_ts max_days.
Let cand := candidate_in now_ts max_days.

Lemma candidate_in_same files files' q :
  files' !! q = files !! q -> cand files' q = cand files q.
Proof. intros E. unfold cand, candidate_in. by rewrite E. Qed.

(** The loop over a listing without repetitions whose files all exist ends
    normally; it removes the candidates of the listing that can be
    unlinked and calls unlink on every candidate, in listing order. *)
Lemma for_each_retention (l : list Path) :
  forall w,
    NoDup l -> (forall p, p ∈ l -> is_Some (fs w !! p)) ->
    exists w', for_each l step w = (Ok tt, w')
      /\ (forall q, fs w' !! q =
                      if bool_decide (q ∈ l) && cand (fs w) q && unlink_ok env q
                      then None else fs w !! q)
      /\ unlink_calls w' = unlink_calls w ++ filter (fun p => Is_true (cand (fs w) p)) l
      /\ curl_calls w' = curl_calls w
      /\ rclone_calls w' = rclone_calls w.
Proof.
  induction l as [|p l IH]; intros w Hnd Hin.
  - exists w. simpl. split; [reflexivity|]. split; [|by rewrite app_nil_r].
    intros q. reflexivity.
  - apply NoDup_cons in Hnd as [Hp Hnd].
    destruct (Hin p) as [m Hm]; [by left|].
    assert (Hne : forall q, q ∈ l -> q <> p) by (intros q Hq ->; done).
    destruct (is_candidate now_ts max_days p m) eqn:Hc.
    + destruct (retention_step_candidate env now_ts max_days p m w Hm Hc)
        as (w1 & Hstep & Hfs1 & Hun1 & Hcu1 & Hrc1).
      assert (Hlk : forall q, q <> p -> fs w1 !! q = fs w !! q).
      { intros q Hq. rewrite Hfs1. destruct (unlink_ok env p); [|done].
        by apply lookup_delete_ne. }
      destruct (IH w1 Hnd) as (w' & Hrun & Hfs & Hun & Hcu & Hrc).
      { intros q Hq. rewrite Hlk by auto. apply Hin. by right. }
      exists w'. split.
      { simpl. unfold bind. fold step. unfold step at 1. rewrite Hstep. exact Hrun. }
      split; [|split; [|split; congruence]].
      * intros q. rewrite Hfs. destruct (decide (q = p)) as [->|Hq].
        -- rewrite (bool_decide_eq_false_2 (p ∈ l)) by done. simpl.
           rewrite (bool_decide_eq_true_2 (p ∈ p :: l)) by left.
           unfold cand at 1, candidate_in. rewrite Hm, Hc. simpl.
           rewrite Hfs1. destruct (unlink_ok env p); [apply lookup_delete_eq | done].
        -- rewrite Hlk by done. rewrite (candidate_in_same (fs w) (fs w1)) by auto.
           assert (Hb : bool_decide (q ∈ p :: l) = bool_decide (q ∈ l)).
           { apply bool_decide_ext. rewrite elem_of_cons. tauto. }
           by rewrite Hb.
      * rewrite Hun, Hun1, <- app_assoc. f_equal.
        rewrite filter_cons_True.
        2:{ unfold cand, candidate_in. rewrite Hm, Hc. done. }
        simpl. f_equal. apply filter_ext_elem. intros q Hq.
        rewrite (candidate_in_same (fs w) (fs w1)); [done | auto].
    + pose proof (retention_step_keep env now_ts max_days p m w Hm Hc) as Hstep.
      destruct (IH w Hnd) as (w' & Hrun & Hfs & Hun & Hcu & Hrc).
      { intros q Hq. apply Hin. by right. }
      exists w'. split.
      { simpl. unfold bind. fold step. unfold step at 1. rewrite Hstep. exact Hrun. }
      split; [|split; [|split; congruence]].
      * intros q. rewrite Hfs. destruct (decide (q = p)) as [->|Hq].
        -- rewrite (bool_decide_eq_false_2 (p ∈ l)) by done. simpl.
           unfold cand, candidate_in. rewrite Hm, Hc.
           by rewrite andb_false_r.
        -- assert (Hb : bool_decide (q ∈ p :: l) = bool_decide (q ∈ l)).
           { apply bool_decide_ext. rewrite elem_of_cons. tauto. }
           by rewrite Hb.
      * rewrite Hun. f_equal. rewrite filter_cons_False; [done|].
        unfold cand, candidate_in. rewrite Hm, Hc. simpl. tauto.
Qed.

End RetentionLoop.

(** ** The retention pass *)

Lemma walk_files_NoDup top files : NoDup (walk_files top files).
Proof. unfold walk_files. apply NoDup_filter, NoDup_fst_map_to_list. Qed.

Lemma elem_of_walk_files top files p :
  p ∈ walk_files top files <-> under top p = true /\ is_Some (files !! p).
Proof.
  unfold walk_files, under. rewrite list_elem_of_filter, list_elem_of_fmap.
  rewrite Is_true_true. split.
  - intros [Hu ([q m] & -> & Hqm)]. split; [done|].
    apply elem_of_map_to_list in Hqm. by exists m.
  - intros [Hu [m Hm]]. split; [done|].
    exists (p, m). split; [done|]. by apply elem_of_map_to_list.
Qed.

Section RetentionPass.

Variable env : Env.
Variables (top : string) (max_days : Z).

Let now_ts := retention_now_ts env.
Let cand := candidate_in now_ts max_days.

(** The pass always ends normally.  A file disappears exactly when it is
    below the scanned directory, is a candidate, and its unlink succeeds;
    unlink is called on the candidates below the scanned directory. *)
Lemma delete_old_files_spec w :
  exists w', delete_old_files env top max_days w = (Ok tt, w')
    /\ (forall q, fs w' !! q =
                    if under top q && cand (fs w) q && unlink_ok env q
                    then None else fs w !! q)
    /\ unlink_calls w' =
         unlink_calls w ++ filter (fun p => Is_true (cand (fs w) p)) (walk_files top (fs w))
    /\ curl_calls w' = curl_calls w
    /\ rclone_calls w' = rclone_calls w.
Proof.
  destruct (for_each_retention env now_ts max_days (walk_files top (fs w)) w)
    as (w' & Hrun & Hfs & Hrest).
  { apply walk_files_NoDup. }
  { intros p Hp. by apply elem_of_walk_files in Hp as [_ ?]. }
  exists w'. split; [exact Hrun|]. split; [|exact Hrest].
  intros q. rewrite Hfs. fold cand.
  destruct (cand (fs w) q) eqn:Hc; [|by rewrite !andb_false_r].
  assert (Hsome : is_Some (fs w !! q)).
  { unfold cand, candidate_in in Hc. destruct (fs w !! q); [eauto | done]. }
  assert (Hb : bool_decide (q ∈ walk_files top (fs w)) = under top q).
  { destruct (under top q) eqn:Hu.
    - apply bool_decide_eq_true_2, elem_of_walk_files. done.
    - apply bool_decide_eq_false_2. rewrite elem_of_walk_files. intros [? _]. congruence. }
  by rewrite Hb.
Qed.

(** A loop that meets no candidate changes nothing at all. *)
Lemma for_each_no_candidate (l : list Path) w :
  (forall p, p ∈ l ->
     is_zip p = false \/
     exists m, fs w !! p = Some m /\ is_candidate now_ts max_days p m = false) ->
  for_each l (retention_step env now_ts max_days) w = (Ok tt, w).
Proof.
  induction l as [|p l IH]; intros Hl; [reflexivity|].
  simpl. unfold bind.
  assert (Hstep : retention_step env now_ts max_days p w = (Ok tt, w)).
  { destruct (Hl p) as [Hz|(m & Hm & Hc)]; [by left | |].
    - by apply retention_step_not_zip.
    - by apply (retention_step_keep _ _ _ _ m). }
  rewrite Hstep. apply IH. intros q Hq. apply Hl. by right.
Qed.

Lemma delete_old_files_no_candidate w :
  (forall p m, under top p = true -> is_zip p = true -> fs w !! p = Some m ->
               is_candidate now_ts max_days p m = false) ->
  delete_old_files env top max_days w = (Ok tt, w).
Proof.
  intros Hnone. unfold delete_old_files, bind, os_walk.
  apply for_each_no_candidate. intros p Hp.
  apply elem_of_walk_files in Hp as [Hu [m Hm]].
  destruct (is_zip p) eqn:Hz; [right | by left].
  exists m. split; [done|]. by apply Hnone.
Qed.

End RetentionPass.

(** ** Retention horizon *)

Lemma py_max_three a b c : py_max a [b; c] = Z.max a (Z.max b c).
Proof.
  unfold py_max. simpl.
  destruct (a <? b) eqn:E1.
  - destruct (b <? c) eqn:E2; lia.
  - destruct (a <? c) eqn:E2; lia.
Qed.

Lemma max_age_days_max cfg :
  max_age_days cfg =
  Z.max (RETENTION_DAYS cfg) (Z.max (RETENTION_WEEKS cfg * 7) (RETENTION_MONTHS cfg * 30)).
Proof. apply py_max_three. Qed.

(** C2: the horizon handed to the retention pass is max(d, 7w, 30m), for
    all integer windows, and it never decreases when windows grow; raising a
    single window (the other two unchanged) is the special case. *)
Theorem max_age_days_is_max_and_monotone (cfg cfg' : Config) :
  max_age_days cfg
  = cutoff_days_spec (RETENTION_DAYS cfg) (RETENTION_WEEKS cfg) (RETENTION_MONTHS cfg)
  /\ (RETENTION_DAYS cfg <= RETENTION_DAYS cfg' ->
      RETENTION_WEEKS cfg <= RETENTION_WEEKS cfg' ->
      RETENTION_MONTHS cfg <= RETENTION_MONTHS cfg' ->
      max_age_days cfg <= max_age_days cfg')
  /\ max_age_days (load_config (mkEnviron None None None None None None None None))
     = Z.max 7 (Z.max (7 * 4) (30 * 3)).
Proof.
  split; [|split].
  - rewrite max_age_days_max. unfold cutoff_days_spec. lia.
  - intros Hd Hw Hm. rewrite !max_age_days_max. lia.
  - reflexivity.
Qed.

(** ** Survivors of a pass without failures *)

Section Survivors.

Variable env : Env.
Variables (top : string) (max_days : Z).

Let now_ts := retention_now_ts env.

Lemma candidate_in_Some files p m :
  files !! p = Some m ->
  candidate_in now_ts max_days files p = is_candidate now_ts max_days p m.
Proof. intros H. unfold candidate_in. by rewrite H. Qed.

Lemma is_candidate_old p m :
  is_zip p = true ->
  (is_candidate now_ts max_days p m = true
   <-> (inject_Z max_days < age_days now_ts m)%Q).
Proof.
  intros Hz. unfold is_candidate. rewrite Hz. simpl. apply Qgtb_lt.
Qed.

Lemma is_candidate_young p m :
  is_zip p = true ->
  (is_candidate now_ts max_days p m = false
   <-> (age_days now_ts m <= inject_Z max_days)%Q).
Proof.
  intros Hz. unfold is_candidate. rewrite Hz. simpl. apply Qgtb_le.
Qed.

End Survivors.

Lemma unlink_ok_true env p : unlink_raises env p = None -> unlink_ok env p = true.
Proof. intros H. unfold unlink_ok. by rewrite H. Qed.



(** ** Two passes in a row *)

Lemma age_days_compat_now now1 now2 m :
  (now1 == now2)%Q -> (age_days now1 m == age_days now2 m)%Q.
Proof. intros H. unfold age_days. rewrite H. reflexivity. Qed.

(** C3, as amended: after a pass without unlink failures, a second pass
    changes nothing (no unlink call, no log line, no output) when it reads
    the same clock value, and more generally whenever no surviving archive
    below the scanned directory has meanwhile aged past the horizon. *)
Theorem second_pass_is_noop (env1 env2 : Env) (top : string) (c : Z) (w : World) :
  (forall p, unlink_raises env1 p = None) ->
  exists w1, delete_old_files env1 top c w = (Ok tt, w1)
    /\ ((retention_now_ts env2 == retention_now_ts env1)%Q ->
        delete_old_files env2 top c w1 = (Ok tt, w1))
    /\ ((forall p m, under top p = true -> is_zip p = true -> fs w1 !! p = Some m ->
           (age_days (retention_now_ts env2) m <= inject_Z c)%Q) ->
        delete_old_files env2 top c w1 = (Ok tt, w1)).
Proof.
  intros Hok.
  destruct (delete_old_files_spec env1 top c w) as (w1 & Hrun & Hfs & _).
  exists w1. split; [exact Hrun|].
  assert (Hyoung : forall p m, under top p = true -> is_zip p = true ->
            fs w1 !! p = Some m ->
            (age_days (retention_now_ts env1) m <= inject_Z c)%Q).
  { intros p m Hu Hz Hm1. rewrite Hfs, Hu, (unlink_ok_true _ _ (Hok p)) in Hm1.
    simpl in Hm1. rewrite andb_true_r in Hm1.
    destruct (candidate_in _ c (fs w) p) eqn:Hc; [done|].
    rewrite (candidate_in_Some _ _ _ _ m Hm1) in Hc.
    by apply (is_candidate_young _ c p m Hz). }
  assert (Hgen : (forall p m, under top p = true -> is_zip p = true ->
             fs w1 !! p = Some m ->
             (age_days (retention_now_ts env2) m <= inject_Z c)%Q) ->
           delete_old_files env2 top c w1 = (Ok tt, w1)).
  { intros Hage. apply delete_old_files_no_candidate. intros p m Hu Hz Hm.
    apply (is_candidate_young _ c p m Hz). by apply (Hage p m). }
  split; [|exact Hgen].
  intros Hsame. apply Hgen. intros p m Hu Hz Hm.
  rewrite (age_days_compat_now _ _ m Hsame). by apply (Hyoung p m).
Qed.

Lemma second_pass_is_noop_witness :
  exists w1,
    delete_old_files Scenario.calm "/backups" 90 (initial_world Scenario.files) = (Ok tt, w1)
    /\ delete_old_files Scenario.calm "/backups" 90 w1 = (Ok tt, w1).
Proof.
  destruct (second_pass_is_noop Scenario.calm Scenario.calm "/backups" 90
              (initial_world Scenario.files)) as (w1 & Hrun & Hsame & _).
  - intros p. reflexivity.
  - exists w1. split; [exact Hrun|]. apply Hsame. reflexivity.
Defined.

(** C3, as stated, fails for a later scan: an archive that is exactly 90
    days old survives the first pass and is removed by a second pass one
    second later, although nothing was added and no unlink fails. *)
Lemma second_pass_later_counterexample :
  let r1 := delete_old_files Scenario.calm "/backups" 90 (initial_world Faults.borderline) in
  let r2 := delete_old_files Faults.one_second_later "/backups" 90 r1.2 in
  (forall p, unlink_raises Scenario.calm p = None)
  /\ (forall p, unlink_raises Faults.one_second_later p = None)
  /\ (retention_now_ts Scenario.calm < retention_now_ts Faults.one_second_later)%Q
  /\ r1.1 = Ok tt
  /\ unlink_calls r1.2 = []
  /\ fs r1.2 !! Faults.file_90 = Some (Scenario.days_ago 90)
  /\ r2.1 = Ok tt
  /\ unlink_calls r2.2 = [Faults.file_90]
  /\ fs r2.2 !! Faults.file_90 = None.
Proof.
  split; [intros p; reflexivity|]. split; [intros p; reflexivity|].
  repeat split; vm_compute; reflexivity.
Qed.

(** ** The extension guard and the file name *)



(** C6: two [.zip] files below the scanned directory whose modification
    times are equal get the same decision, whatever their names: unlink is
    called on both or on neither. *)
Theorem decision_ignores_file_name (env : Env) (top : string) (c : Z) (w : World)
    (p1 p2 : Path) (m1 m2 : Q) :
  under top p1 = true -> under top p2 = true ->
  Pathlib.suffix p1 = ".zip"%string -> Pathlib.suffix p2 = ".zip"%string ->
  fs w !! p1 = Some m1 -> fs w !! p2 = Some m2 ->
  (m1 == m2)%Q ->
  exists w' calls, delete_old_files env top c w = (Ok tt, w')
    /\ unlink_calls w' = unlink_calls w ++ calls
    /\ (p1 ∈ calls <-> p2 ∈ calls)
    /\ (p1 ∈ calls <-> (inject_Z c < age_days (retention_now_ts env) m1)%Q).
Proof.
  intros Hu1 Hu2 Hs1 Hs2 Hm1 Hm2 Heq.
  assert (Hz1 : is_zip p1 = true) by (unfold is_zip; by apply String.eqb_eq).
  assert (Hz2 : is_zip p2 = true) by (unfold is_zip; by apply String.eqb_eq).
  destruct (delete_old_files_spec env top c w) as (w' & Hrun & _ & Hun & _).
  eexists w', _. split; [exact Hrun|]. split; [exact Hun|].
  assert (Hin : forall p m, under top p = true -> fs w !! p = Some m ->
            (p ∈ filter (fun p => Is_true (candidate_in (retention_now_ts env) c (fs w) p))
                   (walk_files top (fs w))
             <-> is_candidate (retention_now_ts env) c p m = true)).
  { intros p m Hu Hm. rewrite list_elem_of_filter, elem_of_walk_files.
    rewrite (candidate_in_Some _ _ _ _ m Hm), Is_true_true.
    split; [tauto|]. intros Hc. split; [done|]. split; [done | by exists m]. }
  split.
  - rewrite (Hin p1 m1 Hu1 Hm1), (Hin p2 m2 Hu2 Hm2).
    rewrite (is_candidate_compat _ c p1 p2 m1 m2); [done | congruence | done].
  - rewrite (Hin p1 m1 Hu1 Hm1). by apply is_candidate_old.
Qed.

Lemma decision_ignores_file_name_witness :
  exists w' calls,
    delete_old_files Scenario.calm "/backups" 90 (initial_world Faults.twins) = (Ok tt, w')
    /\ unlink_calls w' = [] ++ calls
    /\ (Faults.named_old ∈ calls <-> Faults.named_new ∈ calls)
    /\ (Faults.named_old ∈ calls
        <-> (inject_Z 90 < age_days Scenario.now_ts (Scenario.days_ago 100))%Q).
Proof.
  apply (decision_ignores_file_name Scenario.calm "/backups" 90
           (initial_world Faults.twins) Faults.named_old Faults.named_new
           (Scenario.days_ago 100) (Scenario.days_ago 100));
    vm_compute; reflexivity.
Defined.

(** ** The whole run *)

(** Running the straight-line part of the script symbolically. *)
Ltac run_steps :=
  cbv beta iota zeta delta
    [bind ret raise try_except print makedirs create_archive subprocess_call
     append_log subprocess_run_curl set_fs
     fs log_file log_attempts stdout rclone_calls curl_calls unlink_calls].

Section Run.

Variable env : Env.
Variable cfg : Config.

(** The run up to the retention pass: where it can stop, and what it has
    done when it gets there. *)
Lemma main_run (w : World) :
  match BACKUP_DIR cfg with
  | None => main env cfg w = (Raised type_error, w)
  | Some b =>
      let zp := zip_path b (PROJECT_NAME cfg) (clock_now env) in
      match makedirs_raises env with
      | Some e => main env cfg w = (Raised e, w)
      | None =>
          match archive_raises env with
          | Some e =>
              exists w', main env cfg w = (Raised e, w')
                /\ fs w' = fs w /\ curl_calls w' = curl_calls w
                /\ rclone_calls w' = rclone_calls w
                /\ unlink_calls w' = unlink_calls w
          | None =>
              exists cmd w1,
                fs w1 = <[zp := archive_mtime env]> (fs w)
                /\ rclone_calls w1 = rclone_calls w ++ [(cmd, rclone_exit env)]
                /\ unlink_calls w1 = unlink_calls w
                /\ match log_raises env (log_attempts w) with
                   | Some e =>
                       main env cfg w = (Raised e, w1)
                       /\ curl_calls w1 = curl_calls w
                   | None =>
                       main env cfg w = delete_old_files env b (max_age_days cfg) w1
                       /\ curl_calls w1 =
                            curl_calls w ++
                            (if NOTIFY cfg && (rclone_exit env =? 0)
                             then [notification env cfg] else [])
                   end
          end
      end
  end.
Proof.
  destruct w as [files lg attempts out rc cc uc].
  unfold main. destruct (BACKUP_DIR cfg) as [b|]; [|reflexivity].
  run_steps.
  destruct (makedirs_raises env) as [e|]; [reflexivity|].
  destruct (archive_raises env) as [e|].
  { eexists. split; [reflexivity|]. auto. }
  destruct (log_raises env attempts) as [e|].
  { eexists _, _.
    split; [|split; [|split; [|split; [reflexivity|]]]]; reflexivity. }
  destruct (NOTIFY cfg && (rclone_exit env =? 0)).
  - destruct (curl_raises env) as [e|]; eexists _, _;
      (split; [|split; [|split; [|split; [reflexivity|]]]]; reflexivity).
  - eexists _, _.
    split; [|split; [|split; [|split; [reflexivity|]]]];
      try reflexivity.
    by rewrite app_nil_r.
Qed.

End Run.

(** ** Failure isolation *)



(** ** Notification *)




(** ** History log failures *)




(** ** The archive of the current run *)

Lemma max_age_days_positive cfg :
  0 < RETENTION_DAYS cfg \/ 0 < RETENTION_WEEKS cfg \/ 0 < RETENTION_MONTHS cfg ->
  1 <= max_age_days cfg.
Proof. intros H. rewrite max_age_days_max. lia. Qed.

Lemma young_is_no_candidate now_ts c p m :
  1 <= c -> (age_days now_ts m < 1)%Q -> is_candidate now_ts c p m = false.
Proof.
  intros Hc Hage. unfold is_candidate. apply andb_false_iff. right.
  apply Qgtb_le. apply Qlt_le_weak. eapply Qlt_le_trans; [exact Hage|].
  change 1%Q with (inject_Z 1). rewrite <- Zle_Qle. exact Hc.
Qed.

(** C10: when some retention window is positive the horizon is at least one
    day, so the archive the run has just written, being less than a day old
    when the retention pass reads the clock, is not a candidate: the run
    never calls unlink on it, and it is still there when the run ends. *)
Theorem fresh_archive_survives (env : Env) (cfg : Config) (files : gmap Path Q)
    (b : string) :
  BACKUP_DIR cfg = Some b ->
  0 < RETENTION_DAYS cfg \/ 0 < RETENTION_WEEKS cfg \/ 0 < RETENTION_MONTHS cfg ->
  (age_days (retention_now_ts env) (archive_mtime env) < 1)%Q ->
  let zp := zip_path b (PROJECT_NAME cfg) (clock_now env) in
  let r := main env cfg (initial_world files) in
  1 <= max_age_days cfg
  /\ is_candidate (retention_now_ts env) (max_age_days cfg) zp (archive_mtime env) = false
  /\ ~ zp ∈ unlink_calls (snd r)
  /\ (makedirs_raises env = None -> archive_raises env = None ->
      fs (snd r) !! zp = Some (archive_mtime env)).
Proof.
  intros Hb Hwin Hage zp r.
  pose proof (max_age_days_positive cfg Hwin) as Hc.
  pose proof (young_is_no_candidate _ _ zp _ Hc Hage) as Hno.
  split; [exact Hc|]. split; [exact Hno|].
  pose proof (main_run env cfg (initial_world files)) as Hrun.
  rewrite Hb in Hrun. simpl in Hrun. fold zp in Hrun. subst r.
  destruct (makedirs_raises env) as [e|].
  { rewrite Hrun. simpl. split; [apply not_elem_of_nil | done]. }
  destruct (archive_raises env) as [e|].
  { destruct Hrun as (w' & -> & _ & _ & _ & Hun). simpl in *. rewrite Hun.
    split; [apply not_elem_of_nil | done]. }
  destruct Hrun as (cmd & w1 & Hfs1 & _ & Hun1 & Hlog). simpl in Hun1.
  assert (Hzp : fs w1 !! zp = Some (archive_mtime env)).
  { rewrite Hfs1. apply lookup_insert_eq. }
  destruct (log_raises env 0%nat) as [e|].
  { destruct Hlog as [-> _]. simpl. rewrite Hun1.
    split; [apply not_elem_of_nil | done]. }
  destruct Hlog as [-> _].
  destruct (delete_old_files_spec env b (max_age_days cfg) w1)
    as (w' & -> & Hfs & Hun & _).
  simpl.
  assert (Hcin : candidate_in (retention_now_ts env) (max_age_days cfg) (fs w1) zp = false).
  { by rewrite (candidate_in_Some _ _ _ _ _ Hzp). }
  split.
  - rewrite Hun, Hun1. simpl. rewrite list_elem_of_filter. intros [H _].
    rewrite Hcin in H. done.
  - intros _ _. rewrite Hfs, Hcin, andb_false_r. exact Hzp.
Qed.

Lemma fresh_archive_survives_witness :
  let zp := zip_path "/backups" (Some "site"%string) Scenario.now in
  let r := main Scenario.calm Scenario.cfg (initial_world Scenario.files) in
  1 <= max_age_days Scenario.cfg
  /\ is_candidate Scenario.now_ts (max_age_days Scenario.cfg) zp Scenario.now_ts = false
  /\ ~ zp ∈ unlink_calls (snd r)
  /\ (makedirs_raises Scenario.calm = None -> archive_raises Scenario.calm = None ->
      fs (snd r) !! zp = Some Scenario.now_ts).
Proof.
  apply (fresh_archive_survives Scenario.calm Scenario.cfg Scenario.files "/backups").
  - reflexivity.
  - left. vm_compute. reflexivity.
  - vm_compute. reflexivity.
Defined.

(** ** Artifact naming *)

Section StringFacts.

Local Open Scope string_scope.

Lemma app_nil_string (t : string) : "" ++ t = t.
Proof. reflexivity. Qed.

Lemma app_cons_string c (s t : string) : String c s ++ t = String c (s ++ t).
Proof. reflexivity. Qed.

Lemma app_assoc_string (s t u : string) : (s ++ t) ++ u = s ++ t ++ u.
Proof.
  induction s as [|c s IH]; [reflexivity|].
  rewrite !app_cons_string. by rewrite IH.
Qed.

Lemma length_app_string (s t : string) :
  String.length (s ++ t) = (String.length s + String.length t)%nat.
Proof.
  induction s as [|c s IH]; [reflexivity|].
  rewrite app_cons_string. simpl. by rewrite IH.
Qed.

Lemma all_plain_app s t : all_plain (s ++ t) = all_plain s && all_plain t.
Proof.
  induction s as [|c s IH]; [reflexivity|].
  rewrite app_cons_string. simpl. rewrite IH. by rewrite andb_assoc.
Qed.

Lemma no_slash_app s t : no_slash (s ++ t) = no_slash s && no_slash t.
Proof.
  induction s as [|c s IH]; [reflexivity|].
  rewrite app_cons_string. simpl. rewrite IH. by rewrite andb_assoc.
Qed.

Lemma all_plain_no_slash s : all_plain s = true -> no_slash s = true.
Proof.
  induction s as [|c s IH]; [done|]. simpl. unfold plain_char.
  intros H. apply andb_true_iff in H as [Hc Hs].
  apply andb_true_iff in Hc as [Hc _]. rewrite Hc. by apply IH.
Qed.

(** *** Decimal numerals *)

Lemma all_plain_string_of_uint u : all_plain (NilEmpty.string_of_uint u) = true.
Proof. induction u; simpl; try rewrite IHu; reflexivity. Qed.

Lemma all_plain_zeros k : all_plain (Str.zeros k) = true.
Proof. induction k as [|k IH]; [reflexivity|]. simpl. by rewrite IH. Qed.

Lemma all_plain_zfill width n : all_plain (Str.zfill width n) = true.
Proof.
  unfold Str.zfill, Str.of_nat.
  by rewrite all_plain_app, all_plain_zeros, all_plain_string_of_uint.
Qed.

Lemma zfill_nonempty width n : (1 <= width)%nat -> Str.zfill width n <> "".
Proof.
  intros Hw. unfold Str.zfill.
  destruct (Str.of_nat n) as [|c s] eqn:E.
  - simpl. rewrite Nat.sub_0_r. destruct width; [lia | done].
  - destruct (Str.zeros _); done.
Qed.

(** *** Splitting at the separator *)

Lemma split_go_no_slash acc s :
  no_slash s = true -> Str.split_go acc s = [String.rev_app acc s].
Proof.
  revert acc. induction s as [|c s IH]; intros acc Hs; [reflexivity|].
  simpl in Hs. apply andb_true_iff in Hs as [Hc Hs].
  apply negb_true_iff in Hc. simpl. rewrite Hc. by rewrite IH.
Qed.

Lemma split_go_app acc a b :
  no_slash a = true ->
  Str.split_go acc (a ++ "/" ++ b) = String.rev_app acc a :: Str.split_go "" b.
Proof.
  revert acc. induction a as [|c a IH]; intros acc Ha.
  - reflexivity.
  - simpl in Ha. apply andb_true_iff in Ha as [Hc Ha].
    apply negb_true_iff in Hc. rewrite app_cons_string. simpl. rewrite Hc.
    by rewrite IH.
Qed.

Lemma split_slash_no_slash s : no_slash s = true -> Str.split_slash s = [s].
Proof. intros H. unfold Str.split_slash. by rewrite split_go_no_slash. Qed.

Lemma split_slash_app a b :
  no_slash a = true -> Str.split_slash (a ++ "/" ++ b) = a :: Str.split_slash b.
Proof. intros H. unfold Str.split_slash. by rewrite split_go_app. Qed.

(** *** Components *)

Lemma keep_part_plain s : all_plain s = true -> s <> "" -> Pathlib.keep_part s = true.
Proof.
  intros Hp Hne. destruct s as [|c s]; [done|].
  simpl in Hp. apply andb_true_iff in Hp as [Hc _].
  unfold plain_char in Hc. apply andb_true_iff in Hc as [_ Hc].
  apply negb_true_iff in Hc.
  unfold Pathlib.keep_part. apply andb_true_iff. split; [reflexivity|].
  apply negb_true_iff. change "." with (String Str.dot "").
  simpl. by rewrite Hc.
Qed.

Lemma keep_part_long s : (2 <= String.length s)%nat -> Pathlib.keep_part s = true.
Proof.
  intros Hlen. destruct s as [|c [|c' s]]; simpl in Hlen; [lia | lia |].
  unfold Pathlib.keep_part. apply andb_true_iff. split; [reflexivity|].
  apply negb_true_iff. change "." with (String Str.dot "").
  simpl. by destruct (Ascii.eqb c Str.dot).
Qed.

Lemma starts_with_slash_plain s t :
  all_plain s = true -> s <> "" -> Str.starts_with_slash (s ++ t) = false.
Proof.
  intros Hp Hne. destruct s as [|c s]; [done|].
  simpl in Hp. apply andb_true_iff in Hp as [Hc _].
  unfold plain_char in Hc. apply andb_true_iff in Hc as [Hc _].
  apply negb_true_iff in Hc. rewrite app_cons_string. exact Hc.
Qed.

Lemma of_string_relative s :
  Str.starts_with_slash s = false ->
  Pathlib.of_string s = mkPath Relative (Pathlib.parse_parts s).
Proof.
  intros H. unfold Pathlib.of_string, Pathlib.splitroot.
  destruct s as [|c s]; [reflexivity|]. simpl in H. by rewrite H.
Qed.

Lemma join_relative p key :
  Str.starts_with_slash key = false ->
  Pathlib.join p key = mkPath (anchor p) (parts p ++ Pathlib.parse_parts key).
Proof.
  intros H. unfold Pathlib.join. by rewrite (of_string_relative _ H).
Qed.

End StringFacts.

Section Naming.

Local Open Scope string_scope.

Lemma parse_parts_date_path now :
  Pathlib.parse_parts (Fmt.strftime_date_path now)
  = [Str.zfill 4 (year now); Str.zfill 2 (month now); Str.zfill 2 (day now)].
Proof.
  unfold Pathlib.parse_parts, Fmt.strftime_date_path.
  rewrite split_slash_app by apply all_plain_no_slash, all_plain_zfill.
  rewrite split_slash_app by apply all_plain_no_slash, all_plain_zfill.
  rewrite split_slash_no_slash by apply all_plain_no_slash, all_plain_zfill.
  simpl.
  rewrite !keep_part_plain; try apply all_plain_zfill;
    try (apply zfill_nonempty; lia).
  reflexivity.
Qed.

Lemma date_path_relative now :
  Str.starts_with_slash (Fmt.strftime_date_path now) = false.
Proof.
  unfold Fmt.strftime_date_path.
  apply starts_with_slash_plain; [apply all_plain_zfill | apply zfill_nonempty; lia].
Qed.

Lemma zip_name_relative project now :
  Str.starts_with_slash (fstr project) = false ->
  Str.starts_with_slash (zip_name project now) = false.
Proof.
  intros H. unfold zip_name. destruct (fstr project) as [|c s]; [reflexivity|].
  rewrite app_cons_string. exact H.
Qed.

Lemma all_plain_timestamp now : all_plain (Fmt.strftime_timestamp now) = true.
Proof.
  unfold Fmt.strftime_timestamp.
  rewrite !all_plain_app, !all_plain_zfill. reflexivity.
Qed.

Lemma parse_parts_zip_name project now :
  no_slash (fstr project) = true ->
  Pathlib.parse_parts (zip_name project now) = [zip_name project now].
Proof.
  intros Hp. unfold Pathlib.parse_parts.
  rewrite split_slash_no_slash.
  - simpl. rewrite keep_part_long; [reflexivity|].
    unfold zip_name. rewrite !length_app_string. simpl. lia.
  - unfold zip_name. rewrite !no_slash_app, Hp.
    rewrite (all_plain_no_slash _ (all_plain_timestamp now)). reflexivity.
Qed.

Lemma rfind_dot_zip s : Str.rfind_dot (s ++ ".zip") = Some (String.length s).
Proof.
  induction s as [|c s IH]; [reflexivity|].
  rewrite app_cons_string. simpl. by rewrite IH.
Qed.

Lemma drop_length_app s t : Str.drop (String.length s) (s ++ t) = t.
Proof. induction s as [|c s IH]; [by destruct t | exact IH]. Qed.

Lemma last_app_singleton (l : list string) x d : List.last (l ++ [x]) d = x.
Proof. apply List.last_last. Qed.

(** C9, as amended: for a project name that does not begin with a slash,
    the archive path has the anchor and the components of BACKUP_DIR,
    followed by the four digit year, the two digit month, the two digit day
    and the components of PROJECT_YYYYMMDD_HHMMSS.zip; when the project name
    contains no slash that file name is the single last component and its
    suffix is [.zip].  The path is a function of BACKUP_DIR, the project
    name and the clock reading down to the second.  For project site at
    2024-03-05 14:30:00 it ends in 2024/03/05/site_20240305_143000.zip. *)
Theorem zip_path_layout (b : string) (project : option string) (now : DateTime) :
  Str.starts_with_slash (fstr project) = false ->
  let file := fstr project ++ "_" ++ Fmt.strftime_timestamp now ++ ".zip" in
  zip_path b project now
  = mkPath (anchor (Pathlib.of_string b))
           (parts (Pathlib.of_string b)
            ++ [Str.zfill 4 (year now); Str.zfill 2 (month now); Str.zfill 2 (day now)]
            ++ Pathlib.parse_parts file)
  /\ (no_slash (fstr project) = true ->
      Pathlib.parse_parts file = [file]
      /\ Pathlib.name (zip_path b project now) = file
      /\ Pathlib.suffix (zip_path b project now) = ".zip")
  /\ (forall now',
        year now' = year now -> month now' = month now -> day now' = day now ->
        hour now' = hour now -> minute now' = minute now -> second now' = second now ->
        zip_path b project now' = zip_path b project now)
  /\ (forall b',
        zip_path b' (Some "site") (mkDateTime 2024 3 5 14 30 0 0)
        = mkPath (anchor (Pathlib.of_string b'))
                 (parts (Pathlib.of_string b')
                  ++ ["2024"; "03"; "05"; "site_20240305_143000.zip"]))
  /\ Pathlib.str (zip_path "/backups" (Some "site") (mkDateTime 2024 3 5 14 30 0 0))
     = "/backups/2024/03/05/site_20240305_143000.zip".
Proof.
  intros Hrel file.
  assert (Hpath : zip_path b project now
            = mkPath (anchor (Pathlib.of_string b))
                     (parts (Pathlib.of_string b)
                      ++ [Str.zfill 4 (year now); Str.zfill 2 (month now);
                          Str.zfill 2 (day now)]
                      ++ Pathlib.parse_parts file)).
  { unfold zip_path, zip_dir.
    rewrite (join_relative _ (zip_name project now)) by by apply zip_name_relative.
    rewrite (join_relative _ _ (date_path_relative now)). simpl.
    rewrite parse_parts_date_path, <- app_assoc. reflexivity. }
  split; [exact Hpath|]. split; [|split; [|split]].
  - intros Hns.
    pose proof (parse_parts_zip_name project now Hns) as Hparts.
    fold file in Hparts. change (zip_name project now) with file in Hparts.
    split; [exact Hparts|].
    assert (Hname : Pathlib.name (zip_path b project now) = file).
    { rewrite Hpath. unfold Pathlib.name. cbn [parts]. rewrite Hparts.
      rewrite (app_assoc _ _ [file]). apply last_app_singleton. }
    split; [exact Hname|].
    unfold Pathlib.suffix. rewrite Hname. subst file.
    set (stem := fstr project ++ "_" ++ Fmt.strftime_timestamp now).
    assert (Hfile : fstr project ++ "_" ++ Fmt.strftime_timestamp now ++ ".zip"
                    = stem ++ ".zip").
    { subst stem. by rewrite !app_assoc_string. }
    rewrite Hfile, rfind_dot_zip, drop_length_app, length_app_string.
    assert (Hlen : (1 <= String.length stem)%nat).
    { subst stem. rewrite length_app_string. simpl. lia. }
    assert (H1 : (0 <? String.length stem)%nat = true) by by apply Nat.ltb_lt.
    assert (H2 : (String.length stem <? String.length stem + String.length ".zip" - 1)%nat
                 = true) by (apply Nat.ltb_lt; simpl; lia).
    by rewrite H1, H2.
  - intros now' Hy Hmo Hd Hh Hmi Hs.
    unfold zip_path, zip_dir, zip_name, Fmt.strftime_date_path, Fmt.strftime_timestamp.
    by rewrite Hy, Hmo, Hd, Hh, Hmi, Hs.
  - intros b'. unfold zip_path, zip_dir. simpl.
    unfold Pathlib.join. simpl. by rewrite <- app_assoc.
  - vm_compute. reflexivity.
Qed.

Lemma zip_path_layout_witness :
  zip_path "/srv/backups/" (Some "site") Scenario.now
  = mkPath Root ["srv"; "backups"; "2024"; "03"; "05"; "site_20240305_143000.zip"].
Proof.
  destruct (zip_path_layout "/srv/backups/" (Some "site") Scenario.now) as [H _].
  - reflexivity.
  - rewrite H. vm_compute. reflexivity.
Defined.

(** C9, as stated, fails for a project name that begins with a slash: the
    file name is then an anchored path and replaces the directory it is
    joined to, so the archive is not placed below BACKUP_DIR. *)
Lemma zip_path_absolute_project_counterexample :
  let zp := zip_path "/backups" (Some "/x") Scenario.now in
  zp = mkPath Root ["x_20240305_143000.zip"]
  /\ under "/backups" zp = false
  /\ zp <> Pathlib.of_string
             ("/backups" ++ "/" ++ "2024" ++ "/" ++ "03" ++ "/" ++ "05" ++ "/"
              ++ "/x" ++ "_" ++ "20240305_143000" ++ ".zip").
Proof.
  split; [vm_compute; reflexivity|]. split; [vm_compute; reflexivity|].
  vm_compute. intros H. discriminate H.
Qed.

End Naming.

(** * Further properties of the script *)

(** ** What the retention loop writes *)

Section RetentionOutput.

Variable env : Env.
Variables (now_ts : Q) (max_days : Z).

(** A candidate is handled in one of three ways. *)
Lemma retention_step_effects p m w :
  fs w !! p = Some m -> is_candidate now_ts max_days p m = true ->
  retention_step env now_ts max_days p w =
  (Ok tt,
   match unlink_raises env p with
   | Some e =>
       mkWorld (fs w) (log_file w) (log_attempts w)
               (stdout w ++ [error_not_deleted p e])
               (rclone_calls w) (curl_calls w) (unlink_calls w ++ [p])
   | None =>
       match log_raises env (log_attempts w) with
       | Some e =>
           mkWorld (delete p (fs w)) (log_file w) (S (log_attempts w))
                   (stdout w ++ [error_not_deleted p e])
                   (rclone_calls w) (curl_calls w) (unlink_calls w ++ [p])
       | None =>
           mkWorld (delete p (fs w)) (log_file w ++ [deleted_line env p])
                   (S (log_attempts w)) (stdout w ++ [info_deleted p])
                   (rclone_calls w) (curl_calls w) (unlink_calls w ++ [p])
       end
   end).
Proof.
  intros Hm Hc. unfold is_candidate in Hc. apply andb_true_iff in Hc as [Hz Hold].
  unfold retention_step, is_zip, age_days in *.
  rewrite Hz. cbn [negb]. unfold bind at 1. unfold stat_mtime at 1. rewrite Hm, Hold.
  destruct w as [files lg attempts out rc cc uc]. cbn [fs] in Hm.
  unfold try_except, bind, unlink, append_log, print, set_fs.
  cbn [fs log_file log_attempts stdout rclone_calls curl_calls unlink_calls].
  destruct (unlink_raises env p) as [e|]; [reflexivity|].
  rewrite Hm.
  cbn [fs log_file log_attempts stdout rclone_calls curl_calls unlink_calls].
  destruct (log_raises env attempts) as [e|]; reflexivity.
Qed.

Lemma logged_ext files files' n l :
  (forall q, q ∈ l -> files' !! q = files !! q) ->
  logged env now_ts max_days files' n l = logged env now_ts max_days files n l.
Proof.
  revert n. induction l as [|p l IH]; intros n Hext; [reflexivity|].
  cbn [logged]. unfold candidate_in. rewrite (Hext p) by left.
  rewrite !IH by (intros q Hq; apply Hext; by right). reflexivity.
Qed.

Lemma printed_ext files files' n l :
  (forall q, q ∈ l -> files' !! q = files !! q) ->
  printed env now_ts max_days files' n l = printed env now_ts max_days files n l.
Proof.
  revert n. induction l as [|p l IH]; intros n Hext; [reflexivity|].
  cbn [printed]. unfold candidate_in. rewrite (Hext p) by left.
  rewrite !IH by (intros q Hq; apply Hext; by right). reflexivity.
Qed.

(** The history log and the console after the loop. *)
Lemma for_each_retention_output (l : list Path) :
  forall w,
    NoDup l -> (forall p, p ∈ l -> is_Some (fs w !! p)) ->
    exists w', for_each l (retention_step env now_ts max_days) w = (Ok tt, w')
      /\ log_file w' =
           log_file w
           ++ map (deleted_line env) (logged env now_ts max_days (fs w) (log_attempts w) l)
      /\ stdout w' = stdout w ++ printed env now_ts max_days (fs w) (log_attempts w) l.
Proof.
  induction l as [|p l IH]; intros w Hnd Hin.
  - exists w. cbn. by rewrite !app_nil_r.
  - apply NoDup_cons in Hnd as [Hp Hnd].
    destruct (Hin p) as [m Hm]; [by left|].
    assert (Hne : forall q, q ∈ l -> q <> p) by (intros q Hq ->; done).
    cbn [for_each logged printed]. unfold bind at 1.
    unfold candidate_in. rewrite Hm.
    destruct (is_candidate now_ts max_days p m) eqn:Hc.
    + rewrite (retention_step_effects p m w Hm Hc).
      set (w1 := match unlink_raises env p with Some _ => _ | None => _ end).
      assert (Hlk : forall q, q ∈ l -> fs w1 !! q = fs w !! q).
      { intros q Hq. subst w1.
        destruct (unlink_raises env p); [done|].
        destruct (log_raises env (log_attempts w)); cbn [fs];
          apply lookup_delete_ne; intros ->; done. }
      destruct (IH w1 Hnd) as (w' & Hrun & Hlog & Hout).
      { intros q Hq. rewrite Hlk by done. apply Hin. by right. }
      exists w'. split; [exact Hrun|].
      rewrite Hlog, Hout, (logged_ext (fs w) (fs w1)), (printed_ext (fs w) (fs w1)) by done.
      subst w1. unfold unlink_ok, log_ok.
      destruct (unlink_raises env p) as [e|]; cbn [andb log_file log_attempts stdout].
      * split; [reflexivity|]. by rewrite <- app_assoc.
      * destruct (log_raises env (log_attempts w)) as [e|];
          cbn [log_file log_attempts stdout map]; rewrite <- !app_assoc; done.
    + rewrite (retention_step_keep env now_ts max_days p m w Hm Hc).
      cbn [andb]. apply IH; [done|]. intros q Hq. apply Hin. by right.
Qed.

End RetentionOutput.

(** ** The retention pass: what it removes, logs and prints *)

Section RetentionEffects.

Variable env : Env.
Variables (top : string) (max_days : Z).

Let now_ts := retention_now_ts env.

Lemma delete_old_files_output w :
  exists w', delete_old_files env top max_days w = (Ok tt, w')
    /\ (forall q, fs w' !! q =
                    if under top q && candidate_in now_ts max_days (fs w) q && unlink_ok env q
                    then None else fs w !! q)
    /\ log_file w' =
         log_file w
         ++ map (deleted_line env)
                (logged env now_ts max_days (fs w) (log_attempts w) (walk_files top (fs w)))
    /\ stdout w' =
         stdout w
         ++ printed env now_ts max_days (fs w) (log_attempts w) (walk_files top (fs w)).
Proof.
  destruct (delete_old_files_spec env top max_days w) as (w' & Hrun & Hfs & _).
  destruct (for_each_retention_output env now_ts max_days (walk_files top (fs w)) w)
    as (w2 & Hrun2 & Hlog & Hout).
  { apply walk_files_NoDup. }
  { intros p Hp. by apply elem_of_walk_files in Hp as [_ ?]. }
  assert (w2 = w') as ->.
  { unfold delete_old_files, bind, os_walk in Hrun. fold now_ts in Hrun.
    rewrite Hrun2 in Hrun. by injection Hrun. }
  exists w'. auto.
Qed.

Lemma logged_elem files n l p :
  p ∈ logged env now_ts max_days files n l ->
  p ∈ l /\ candidate_in now_ts max_days files p = true /\ unlink_ok env p = true.
Proof.
  revert n. induction l as [|q l IH]; intros n; cbn [logged]; [by intros ?%not_elem_of_nil|].
  destruct (candidate_in now_ts max_days files q && unlink_ok env q) eqn:Hq.
  - apply andb_true_iff in Hq as [Hc Hu].
    destruct (log_ok env n).
    + rewrite elem_of_cons. intros [->|H]; [split; [by left | done]|].
      apply IH in H as (? & ? & ?). split; [by right | done].
    + intros H. apply IH in H as (? & ? & ?). split; [by right | done].
  - intros H. apply IH in H as (? & ? & ?). split; [by right | done].
Qed.

Lemma logged_all files n l p :
  (forall k, log_raises env k = None) ->
  p ∈ l -> candidate_in now_ts max_days files p = true -> unlink_ok env p = true ->
  p ∈ logged env now_ts max_days files n l.
Proof.
  intros Hlog. revert n. induction l as [|q l IH]; intros n Hp Hc Hu;
    [by apply not_elem_of_nil in Hp|].
  cbn [logged]. unfold log_ok. rewrite Hlog.
  apply elem_of_cons in Hp as [->|Hp].
  - rewrite Hc, Hu. left.
  - destruct (_ && _); [right|]; by apply IH.
Qed.

Lemma printed_log_failure files n l p e :
  (forall k, log_raises env k = Some e) ->
  p ∈ l -> candidate_in now_ts max_days files p = true -> unlink_raises env p = None ->
  error_not_deleted p e ∈ printed env now_ts max_days files n l.
Proof.
  intros Hlog. revert n. induction l as [|q l IH]; intros n Hp Hc Hu;
    [by apply not_elem_of_nil in Hp|].
  cbn [printed]. apply elem_of_cons in Hp as [->|Hp].
  - rewrite Hc, Hu, Hlog. left.
  - destruct (candidate_in now_ts max_days files q); [|by apply IH].
    destruct (unlink_raises env q); [right; by apply IH|].
    rewrite Hlog. right. by apply IH.
Qed.

Lemma logged_log_failure files n l e :
  (forall k, log_raises env k = Some e) ->
  logged env now_ts max_days files n l = [].
Proof.
  intros Hlog. revert n. induction l as [|q l IH]; intros n; [reflexivity|].
  cbn [logged]. unfold log_ok. rewrite Hlog, !IH. by destruct (_ && _).
Qed.

Lemma candidate_in_true files p :
  candidate_in now_ts max_days files p = true ->
  exists m, files !! p = Some m /\ is_candidate now_ts max_days p m = true.
Proof.
  unfold candidate_in. destruct (files !! p) as [m|]; [|done]. eauto.
Qed.

End RetentionEffects.


(** X2: a longer horizon never removes more.  On the same files and with
    the same clock, every file that survives the pass with horizon [c] also
    survives the pass with a horizon [c'] at least as long. *)
Theorem longer_horizon_keeps_more (env : Env) (top : string) (c c' : Z) (w : World) :
  c <= c' ->
  exists w1 w2,
    delete_old_files env top c w = (Ok tt, w1)
    /\ delete_old_files env top c' w = (Ok tt, w2)
    /\ fs w1 ⊆ fs w2.
Proof.
  intros Hcc.
  destruct (delete_old_files_spec env top c w) as (w1 & Hrun1 & Hfs1 & _).
  destruct (delete_old_files_spec env top c' w) as (w2 & Hrun2 & Hfs2 & _).
  exists w1, w2. split; [exact Hrun1|]. split; [exact Hrun2|].
  apply map_subseteq_spec. intros p m. rewrite Hfs1, Hfs2.
  destruct (under top p); [|done]. destruct (unlink_ok env p); [|by rewrite !andb_false_r].
  rewrite !andb_true_r. cbn [andb].
  destruct (candidate_in _ c' (fs w) p) eqn:Hc'; [|by destruct (candidate_in _ c (fs w) p)].
  apply candidate_in_true in Hc' as (m' & Hm' & Hc').
  rewrite (candidate_in_Some _ _ _ _ m' Hm').
  unfold is_candidate in *. apply andb_true_iff in Hc' as [Hz Hold].
  rewrite Hz. cbn [andb].
  assert (Hold' : Qgtb (age_days (retention_now_ts env) m') (inject_Z c) = true).
  { apply Qgtb_lt. apply Qgtb_lt in Hold. eapply Qle_lt_trans; [|exact Hold].
    by rewrite <- Zle_Qle. }
  by rewrite Hold'.
Qed.

Lemma longer_horizon_keeps_more_witness :
  exists w1 w2,
    delete_old_files Scenario.calm "/backups" 7 (initial_world Scenario.files) = (Ok tt, w1)
    /\ delete_old_files Scenario.calm "/backups" 90 (initial_world Scenario.files) = (Ok tt, w2)
    /\ fs w1 ⊆ fs w2.
Proof.
  apply (longer_horizon_keeps_more Scenario.calm "/backups" 7 90
           (initial_world Scenario.files)).
  lia.
Defined.

(** X3: the history log records deletions faithfully.  The pass appends
    only deletion entries, each for a file it has removed; when no append
    raises, every removed file has its entry. *)
Theorem deletion_entries_match_deletions (env : Env) (top : string) (c : Z) (w : World) :
  exists w' ps,
    delete_old_files env top c w = (Ok tt, w')
    /\ log_file w' = log_file w ++ map (deleted_line env) ps
    /\ (forall p, p ∈ ps -> is_Some (fs w !! p) /\ fs w' !! p = None)
    /\ ((forall n, log_raises env n = None) ->
        forall p, is_Some (fs w !! p) -> fs w' !! p = None -> p ∈ ps).
Proof.
  destruct (delete_old_files_output env top c w) as (w' & Hrun & Hfs & Hlog & _).
  eexists w', _. split; [exact Hrun|]. split; [exact Hlog|]. split.
  - intros p Hp. apply logged_elem in Hp as (Hp & Hc & Hok).
    apply elem_of_walk_files in Hp as [Hu Hsome]. split; [done|].
    by rewrite Hfs, Hu, Hc, Hok.
  - intros Hall p [m Hm] Hgone. rewrite Hfs, Hm in Hgone.
    destruct (under top p) eqn:Hu; [|done].
    destruct (candidate_in _ c (fs w) p) eqn:Hc; [|done].
    destruct (unlink_ok env p) eqn:Hok; [|done].
    apply logged_all; [done | | done | done].
    apply elem_of_walk_files. split; [done | by exists m].
Qed.

(** X4: when the history log cannot be written, old archives are removed
    all the same, but nothing is logged and the console reports each of them
    as a file that could not be deleted. *)
Theorem unwritable_log_misreports_deletions (env : Env) (top : string) (c : Z)
    (w : World) (e : Exn) (p : Path) (m : Q) :
  (forall n, log_raises env n = Some e) ->
  under top p = true -> fs w !! p = Some m ->
  is_candidate (retention_now_ts env) c p m = true ->
  unlink_raises env p = None ->
  exists w', delete_old_files env top c w = (Ok tt, w')
    /\ fs w' !! p = None
    /\ log_file w' = log_file w
    /\ error_not_deleted p e ∈ stdout w'.
Proof.
  intros Hlog Hu Hm Hc Hok.
  destruct (delete_old_files_output env top c w) as (w' & Hrun & Hfs & Hlg & Hout).
  assert (Hcin : candidate_in (retention_now_ts env) c (fs w) p = true).
  { by rewrite (candidate_in_Some _ _ _ _ m Hm). }
  exists w'. split; [exact Hrun|]. split; [|split].
  - by rewrite Hfs, Hu, Hcin, (unlink_ok_true _ _ Hok).
  - rewrite Hlg, (logged_log_failure env c _ _ _ e Hlog). cbn. by rewrite app_nil_r.
  - rewrite Hout, elem_of_app. right.
    apply printed_log_failure; [done | | done | done].
    apply elem_of_walk_files. split; [done | by exists m].
Qed.

Lemma unwritable_log_misreports_deletions_witness :
  exists w',
    delete_old_files Faults.log_unwritable "/backups" 90 (initial_world Scenario.files)
      = (Ok tt, w')
    /\ fs w' !! Scenario.file_100 = None
    /\ log_file w' = []
    /\ error_not_deleted Scenario.file_100 Faults.permission_denied ∈ stdout w'.
Proof.
  apply (unwritable_log_misreports_deletions Faults.log_unwritable "/backups" 90
           (initial_world Scenario.files) Faults.permission_denied
           Scenario.file_100 (Scenario.days_ago 100)).
  - intros n. reflexivity.
  - vm_compute. reflexivity.
  - vm_compute. reflexivity.
  - vm_compute. reflexivity.
  - reflexivity.
Defined.

(** ** The run: upload, notification and early failures *)


(** X5: the retention pass does not depend on the upload or on the
    notification.  Whatever the exit status of rclone, the NOTIFY gate and
    the fate of the curl call, the run ends the same way, leaves the same
    files and calls unlink on the same paths. *)
Theorem retention_ignores_upload_outcome (env : Env) (cfg : Config) (w : World)
    (exit : Z) (curl : option Exn) (notify : bool) :
  let r := main env cfg w in
  let r' := main (with_upload_outcome exit curl env) (with_NOTIFY notify cfg) w in
  r.1 = r'.1 /\ fs r.2 = fs r'.2 /\ unlink_calls r.2 = unlink_calls r'.2.
Proof.
  intros r r'. subst r r'.
  pose proof (main_run env cfg w) as H1.
  pose proof (main_run (with_upload_outcome exit curl env) (with_NOTIFY notify cfg) w) as H2.
  cbn [with_upload_outcome with_NOTIFY BACKUP_DIR PROJECT_NAME NOTIFY makedirs_raises
       archive_raises log_raises clock_now archive_mtime rclone_exit] in H2.
  destruct (BACKUP_DIR cfg) as [b|]; [|by rewrite H1, H2].
  cbv zeta in H1, H2.
  destruct (makedirs_raises env) as [e|]; [by rewrite H1, H2|].
  destruct (archive_raises env) as [e|].
  { destruct H1 as (w1 & -> & Hf1 & _ & _ & Hu1).
    destruct H2 as (w2 & -> & Hf2 & _ & _ & Hu2). cbn. by rewrite Hf1, Hf2, Hu1, Hu2. }
  destruct H1 as (cmd1 & w1 & Hf1 & _ & Hu1 & H1).
  destruct H2 as (cmd2 & w2 & Hf2 & _ & Hu2 & H2).
  destruct (log_raises env (log_attempts w)) as [e|].
  { destruct H1 as [-> _]. destruct H2 as [-> _]. cbn. by rewrite Hf1, Hf2, Hu1, Hu2. }
  destruct H1 as [-> _]. destruct H2 as [-> _].
  assert (Hc : max_age_days (with_NOTIFY notify cfg) = max_age_days cfg) by reflexivity.
  rewrite Hc.
  destruct (delete_old_files_spec env b (max_age_days cfg) w1)
    as (w1' & -> & Hfs1 & Hun1 & _).
  destruct (delete_old_files_spec (with_upload_outcome exit curl env) b
              (max_age_days cfg) w2) as (w2' & -> & Hfs2 & Hun2 & _).
  cbn [fst snd]. split; [reflexivity|].
  cbn [with_upload_outcome retention_now_ts] in Hfs2, Hun2.
  split.
  - apply map_eq. intros q. rewrite Hfs1, Hfs2, Hf1, Hf2. reflexivity.
  - rewrite Hun1, Hun2, Hu1, Hu2, Hf1, Hf2. reflexivity.
Qed.

(** X6: when the archive cannot be produced (BACKUP_DIR is not set, the
    destination directory cannot be made, or writing the archive raises),
    the run ends with the exception and nothing is uploaded, logged, notified
    or handed to unlink. *)
Theorem no_archive_no_effects (env : Env) (cfg : Config) (w : World) :
  BACKUP_DIR cfg = None \/ is_Some (makedirs_raises env) \/ is_Some (archive_raises env) ->
  exists e w', main env cfg w = (Raised e, w')
    /\ rclone_calls w' = rclone_calls w
    /\ log_file w' = log_file w
    /\ curl_calls w' = curl_calls w
    /\ unlink_calls w' = unlink_calls w.
Proof.
  intros H. destruct w as [files lg attempts out rc cc uc].
  unfold main. destruct (BACKUP_DIR cfg) as [b|] eqn:Hb.
  2:{ eexists _, _. split; [reflexivity|]. auto. }
  run_steps.
  destruct (makedirs_raises env) as [e|] eqn:Hmk.
  { eexists _, _. split; [reflexivity|]. auto. }
  destruct (archive_raises env) as [e|] eqn:Har.
  { eexists _, _. split; [reflexivity|]. auto. }
  exfalso. destruct H as [H|[[? H]|[? H]]]; congruence.
Qed.

Lemma no_archive_no_effects_witness :
  exists e w',
    main Scenario.calm (load_config (mkEnviron None None None None None None None None))
         (initial_world Scenario.files) = (Raised e, w')
    /\ rclone_calls w' = []
    /\ log_file w' = []
    /\ curl_calls w' = []
    /\ unlink_calls w' = [].
Proof.
  apply (no_archive_no_effects Scenario.calm
           (load_config (mkEnviron None None None None None None None None))
           (initial_world Scenario.files)).
  left. reflexivity.
Defined.



(** ** The NOTIFY gate (line 28) *)

Lemma lower_ascii_letter (code : nat) (c : Ascii.ascii) :
  (97 <= code <= 122)%nat ->
  (lower_ascii c = Ascii.ascii_of_nat code <-> letter code c).
Proof.
  intros Hcode. unfold lower_ascii, letter.
  pose proof (Ascii.nat_ascii_bounded c) as Hb.
  set (n := Ascii.nat_of_ascii c) in *.
  destruct ((65 <=? n)%nat && (n <=? 90)%nat) eqn:Hcap.
  - apply andb_true_iff in Hcap as [H1 H2].
    apply Nat.leb_le in H1. apply Nat.leb_le in H2.
    split.
    + intros H. right.
      apply (f_equal Ascii.nat_of_ascii) in H.
      rewrite !Ascii.nat_ascii_embedding in H by lia. exact H.
    + intros [H|H]; [lia|]. by rewrite H.
  - assert (Hn : (n < 65 \/ 90 < n)%nat).
    { apply andb_false_iff in Hcap as [H|H];
        [apply Nat.leb_gt in H | apply Nat.leb_gt in H]; lia. }
    split.
    + intros H. left. subst n. rewrite H. apply Ascii.nat_ascii_embedding. lia.
    + intros [H|H]; [|lia]. rewrite <- H. subst n.
      symmetry. apply Ascii.ascii_nat_embedding.
Qed.

(** X8: NOTIFY is enabled when the variable is not set, and otherwise
    exactly when its value is the four letter word true written in any mix of
    small and capital letters; no other value (and no surrounding blank)
    enables it. *)
Theorem notify_gate_parsing (e : Environ) :
  NOTIFY (load_config e) = true
  <-> env_NOTIFY e = None
      \/ exists c1 c2 c3 c4,
           env_NOTIFY e = Some (String c1 (String c2 (String c3 (String c4 EmptyString))))
           /\ letter 116 c1 /\ letter 114 c2 /\ letter 117 c3 /\ letter 101 c4.
Proof.
  unfold load_config. cbn [NOTIFY]. unfold getenv.
  destruct (env_NOTIFY e) as [s|].
  2:{ split; [by left | reflexivity]. }
  rewrite String.eqb_eq.
  assert (Ht : forall c, lower_ascii c = Ascii.ascii_of_nat 116 <-> letter 116 c)
    by (intros; apply lower_ascii_letter; lia).
  assert (Hr : forall c, lower_ascii c = Ascii.ascii_of_nat 114 <-> letter 114 c)
    by (intros; apply lower_ascii_letter; lia).
  assert (Hu : forall c, lower_ascii c = Ascii.ascii_of_nat 117 <-> letter 117 c)
    by (intros; apply lower_ascii_letter; lia).
  assert (He : forall c, lower_ascii c = Ascii.ascii_of_nat 101 <-> letter 101 c)
    by (intros; apply lower_ascii_letter; lia).
  change "true"%string with
    (String (Ascii.ascii_of_nat 116) (String (Ascii.ascii_of_nat 114)
       (String (Ascii.ascii_of_nat 117) (String (Ascii.ascii_of_nat 101) EmptyString)))).
  split.
  - intros H. right.
    destruct s as [|c1 [|c2 [|c3 [|c4 [|c5 s]]]]]; cbn [lower] in H; try discriminate H.
    injection H as H1 H2 H3 H4.
    exists c1, c2, c3, c4. split; [reflexivity|].
    rewrite <- Ht, <- Hr, <- Hu, <- He. done.
  - intros [H|(c1 & c2 & c3 & c4 & [= ->] & H1 & H2 & H3 & H4)]; [discriminate H|].
    cbn [lower]. apply Ht in H1. apply Hr in H2. apply Hu in H3. apply He in H4.
    by rewrite H1, H2, H3, H4.
Qed.

(** ** The name of the archive *)

Section ArchiveName.

Local Open Scope string_scope.

Lemma rev_app_app (a t : string) : String.rev_app a t = String.rev_app a "" ++ t.
Proof.
  revert t. induction a as [|c a IH]; intros t; [reflexivity|].
  cbn [String.rev_app]. rewrite (IH (String c t)), (IH (String c "")).
  by rewrite app_assoc_string.
Qed.

Lemma split_go_nonempty acc s : Str.split_go acc s <> [].
Proof.
  revert acc. induction s as [|c s IH]; intros acc; [done|].
  cbn [Str.split_go]. destruct (Ascii.eqb c Str.slash); [done | apply IH].
Qed.

Lemma last_cons_nonempty {A} (x : A) (l : list A) d :
  l <> [] -> List.last (x :: l) d = List.last l d.
Proof. destruct l; [done | reflexivity]. Qed.

Lemma removelast_cons_nonempty {A} (x : A) (l : list A) :
  l <> [] -> List.removelast (x :: l) = x :: List.removelast l.
Proof. destruct l; [done | reflexivity]. Qed.

(** Appending a text without slash extends the last piece. *)
Lemma split_go_tail acc s t :
  no_slash t = true ->
  Str.split_go acc (s ++ t)
  = (List.removelast (Str.split_go acc s)
     ++ [(List.last (Str.split_go acc s) "" ++ t)%string])%list.
Proof.
  intros Ht. revert acc. induction s as [|c s IH]; intros acc.
  - rewrite app_nil_string, (split_go_no_slash _ _ Ht). cbn.
    unfold String.rev. by rewrite <- rev_app_app.
  - rewrite app_cons_string. cbn [Str.split_go].
    destruct (Ascii.eqb c Str.slash); [|apply IH].
    rewrite IH, removelast_cons_nonempty, last_cons_nonempty
      by apply split_go_nonempty.
    reflexivity.
Qed.

Lemma parse_parts_slash c u :
  Ascii.eqb c Str.slash = true ->
  Pathlib.parse_parts (String c u) = Pathlib.parse_parts u.
Proof.
  intros Hc. unfold Pathlib.parse_parts, Str.split_slash.
  cbn [Str.split_go]. rewrite Hc. reflexivity.
Qed.

(** The components of a parsed path do not depend on how its root is cut. *)
Lemma parts_of_string u : parts (Pathlib.of_string u) = Pathlib.parse_parts u.
Proof.
  unfold Pathlib.of_string, Pathlib.splitroot.
  destruct u as [|c1 u1]; [reflexivity|].
  destruct (Ascii.eqb c1 Str.slash) eqn:H1; [|reflexivity].
  rewrite (parse_parts_slash _ _ H1).
  destruct u1 as [|c2 u2]; [reflexivity|].
  destruct (Ascii.eqb c2 Str.slash) eqn:H2; [|reflexivity].
  destruct u2 as [|c3 u3].
  - cbn [parts]. by rewrite (parse_parts_slash _ _ H2).
  - destruct (Ascii.eqb c3 Str.slash) eqn:H3; cbn [parts]; [reflexivity|].
    by rewrite (parse_parts_slash _ _ H2).
Qed.

Lemma last_filter_snoc (l : list string) y d :
  Pathlib.keep_part y = true ->
  List.last (List.filter Pathlib.keep_part (l ++ [y])%list) d = y.
Proof.
  intros Hy. rewrite List.filter_app. cbn [List.filter]. rewrite Hy.
  apply List.last_last.
Qed.

(** The last component of a text that ends in at least two characters
    without slash. *)
Lemma last_parse_parts_tail s t d :
  no_slash t = true -> (2 <= String.length t)%nat ->
  List.last (Pathlib.parse_parts (s ++ t)) d = base_name s ++ t.
Proof.
  intros Ht Hlen. unfold Pathlib.parse_parts, Str.split_slash, base_name.
  rewrite (split_go_tail _ _ _ Ht). apply last_filter_snoc.
  apply keep_part_long. rewrite length_app_string. lia.
Qed.

Lemma parse_parts_tail_nonempty s t :
  no_slash t = true -> (2 <= String.length t)%nat ->
  Pathlib.parse_parts (s ++ t) <> [].
Proof.
  intros Ht Hlen. unfold Pathlib.parse_parts, Str.split_slash.
  rewrite (split_go_tail _ _ _ Ht), List.filter_app. cbn [List.filter].
  rewrite keep_part_long by (rewrite length_app_string; lia).
  by destruct (List.filter _ _).
Qed.

Lemma last_app_nonempty {A} (l1 l2 : list A) d :
  l2 <> [] -> List.last (l1 ++ l2)%list d = List.last l2 d.
Proof.
  intros H. induction l1 as [|x l1 IH]; [reflexivity|].
  cbn [app]. rewrite last_cons_nonempty; [exact IH|].
  destruct l1; [done | discriminate].
Qed.

Lemma name_join_tail p s t :
  no_slash t = true -> (2 <= String.length t)%nat ->
  Pathlib.name (Pathlib.join p (s ++ t)) = base_name s ++ t.
Proof.
  intros Ht Hlen. unfold Pathlib.name, Pathlib.join.
  pose proof (parts_of_string (s ++ t)) as Hparts.
  destruct (anchor (Pathlib.of_string (s ++ t))); cbn [parts].
  - rewrite Hparts, last_app_nonempty by by apply parse_parts_tail_nonempty.
    by apply last_parse_parts_tail.
  - rewrite Hparts. by apply last_parse_parts_tail.
  - rewrite Hparts. by apply last_parse_parts_tail.
Qed.

Lemma suffix_of_name p stem :
  Pathlib.name p = stem ++ ".zip" -> stem <> "" -> Pathlib.suffix p = ".zip".
Proof.
  intros Hname Hstem. unfold Pathlib.suffix.
  rewrite Hname, rfind_dot_zip, drop_length_app, length_app_string.
  assert (Hlen : (1 <= String.length stem)%nat) by (destruct stem; [done | simpl; lia]).
  assert (H1 : (0 <? String.length stem)%nat = true) by by apply Nat.ltb_lt.
  assert (H2 : (String.length stem <? String.length stem + String.length ".zip" - 1)%nat
               = true) by (apply Nat.ltb_lt; simpl; lia).
  by rewrite H1, H2.
Qed.

(** X9: whatever BACKUP_DIR and the project name are, the archive the run
    writes is named by what follows the last slash of the project name, an
    underscore, the time stamp and [.zip]; its suffix is [.zip], so the
    retention pass counts it as an archive. *)
Theorem archive_has_zip_suffix (b : string) (project : option string) (now : DateTime) :
  Pathlib.name (zip_path b project now)
  = base_name (fstr project) ++ "_" ++ Fmt.strftime_timestamp now ++ ".zip"
  /\ Pathlib.suffix (zip_path b project now) = ".zip"
  /\ is_zip (zip_path b project now) = true.
Proof.
  assert (Hname : Pathlib.name (zip_path b project now)
                  = base_name (fstr project) ++ "_" ++ Fmt.strftime_timestamp now ++ ".zip").
  { unfold zip_path, zip_name. apply name_join_tail.
    - change (no_slash (String (Ascii.ascii_of_nat 95)
                          (Fmt.strftime_timestamp now ++ ".zip")) = true).
      cbn [no_slash]. rewrite no_slash_app.
      by rewrite (all_plain_no_slash _ (all_plain_timestamp now)).
    - change (2 <= String.length (String (Ascii.ascii_of_nat 95)
                          (Fmt.strftime_timestamp now ++ ".zip")))%nat.
      cbn [String.length]. rewrite length_app_string. simpl. lia. }
  assert (Hsuf : Pathlib.suffix (zip_path b project now) = ".zip").
  { apply (suffix_of_name _ (base_name (fstr project) ++ "_" ++ Fmt.strftime_timestamp now)).
    - rewrite Hname. by rewrite !app_assoc_string.
    - intros H. apply (f_equal String.length) in H.
      rewrite length_app_string in H. simpl in H. lia. }
  split; [exact Hname|]. split; [exact Hsuf|].
  unfold is_zip. by rewrite Hsuf.
Qed.

End ArchiveName.

(** ** Where the archive is written, and what the run does to it *)

Section ArchivePlace.

Local Open Scope string_scope.








End ArchivePlace.

(** ** Time stamps in names *)

Section TimeStamps.

Local Open Scope string_scope.

Lemma uint_of_string_zero s :
  NilEmpty.uint_of_string (String (Ascii.ascii_of_nat 48) s)
  = option_map Decimal.D0 (NilEmpty.uint_of_string s).
Proof. cbn. by destruct (NilEmpty.uint_of_string s). Qed.

Lemma parse_decimal_zero s :
  parse_decimal (String (Ascii.ascii_of_nat 48) s) = parse_decimal s.
Proof.
  unfold parse_decimal. rewrite uint_of_string_zero.
  by destruct (NilEmpty.uint_of_string s).
Qed.

(** Reading a zero padded field gives the number back. *)
Lemma parse_decimal_zfill width n : parse_decimal (Str.zfill width n) = Some n.
Proof.
  unfold Str.zfill. induction (width - String.length (Str.of_nat n))%nat as [|k IH].
  - rewrite app_nil_string. unfold parse_decimal, Str.of_nat.
    rewrite NilEmpty.usu. cbn. by rewrite DecimalNat.Unsigned.of_to.
  - cbn [Str.zeros]. rewrite app_cons_string, parse_decimal_zero. exact IH.
Qed.

Lemma zfill_inj width n m : Str.zfill width n = Str.zfill width m -> n = m.
Proof.
  intros H. apply (f_equal parse_decimal) in H.
  rewrite !parse_decimal_zfill in H. by injection H.
Qed.

Lemma zfill_2_length n : (n <= 99)%nat -> String.length (Str.zfill 2 n) = 2%nat.
Proof.
  intros Hn.
  assert (Hall : forallb (fun k => (String.length (Str.zfill 2 k) =? 2)%nat) (seq 0 100)
                 = true) by (vm_compute; reflexivity).
  rewrite forallb_forall in Hall. apply Nat.eqb_eq, Hall, in_seq. lia.
Qed.

Lemma app_inj_length (a a' b b' : string) :
  String.length a = String.length a' -> a ++ b = a' ++ b' -> a = a' /\ b = b'.
Proof.
  revert a'. induction a as [|c a IH]; intros [|c' a'] Hlen H; try discriminate Hlen.
  - done.
  - rewrite !app_cons_string in H. injection H as -> H.
    injection Hlen as Hlen. destruct (IH a' Hlen H) as [-> ->]. done.
Qed.

Lemma app_inj_length_r (a a' b b' : string) :
  String.length b = String.length b' -> a ++ b = a' ++ b' -> a = a' /\ b = b'.
Proof.
  intros Hlen H. apply app_inj_length; [|exact H].
  apply (f_equal String.length) in H. rewrite !length_app_string in H. lia.
Qed.

(** The time stamp of a name determines the clock reading to the second. *)
Lemma strftime_timestamp_inj (t t' : DateTime) (rest : string) :
  valid_clock t -> valid_clock t' ->
  Fmt.strftime_timestamp t ++ rest = Fmt.strftime_timestamp t' ++ rest ->
  year t = year t' /\ month t = month t' /\ day t = day t'
  /\ hour t = hour t' /\ minute t = minute t' /\ second t = second t'.
Proof.
  intros (Hy & Hmo & Hd & Hh & Hmi & Hs) (Hy' & Hmo' & Hd' & Hh' & Hmi' & Hs') H.
  unfold Fmt.strftime_timestamp in H. rewrite !app_assoc_string in H.
  apply app_inj_length_r in H as [H1 H].
  2:{ rewrite !length_app_string, !zfill_2_length by lia. reflexivity. }
  apply app_inj_length in H as [H2 H];
    [|rewrite !zfill_2_length by lia; reflexivity].
  apply app_inj_length in H as [H3 H];
    [|rewrite !zfill_2_length by lia; reflexivity].
  rewrite !app_cons_string, !app_nil_string in H. injection H as H.
  apply app_inj_length in H as [H4 H];
    [|rewrite !zfill_2_length by lia; reflexivity].
  apply app_inj_length in H as [H5 H];
    [|rewrite !zfill_2_length by lia; reflexivity].
  apply app_inj_length in H as [H6 _];
    [|rewrite !zfill_2_length by lia; reflexivity].
  apply zfill_inj in H1, H2, H3, H4, H5, H6. done.
Qed.

(** X12: runs at different seconds never write to the same path.  For two
    clock readings with fields in range, equal archive paths (same
    BACKUP_DIR, same project) force the same year, month, day, hour, minute
    and second; so a later run does not overwrite an earlier archive. *)
Theorem distinct_seconds_distinct_archives (b : string) (project : option string)
    (t t' : DateTime) :
  valid_clock t -> valid_clock t' ->
  zip_path b project t = zip_path b project t' ->
  year t = year t' /\ month t = month t' /\ day t = day t'
  /\ hour t = hour t' /\ minute t = minute t' /\ second t = second t'.
Proof.
  intros Hv Hv' Hpath.
  destruct (archive_has_zip_suffix b project t) as (Hn & _).
  destruct (archive_has_zip_suffix b project t') as (Hn' & _).
  rewrite Hpath, Hn' in Hn.
  apply String.app_inj in Hn.
  rewrite !app_cons_string, !app_nil_string in Hn. injection Hn as Hn.
  symmetry in Hn. by apply (strftime_timestamp_inj t t' ".zip").
Qed.

Lemma distinct_seconds_distinct_archives_witness :
  zip_path "/backups" (Some "site") Scenario.now
  <> zip_path "/backups" (Some "site") Edge.next_day.
Proof.
  intros H.
  destruct (distinct_seconds_distinct_archives "/backups" (Some "site")
              Scenario.now Edge.next_day) as (_ & _ & Hd & _).
  - unfold valid_clock. cbn. lia.
  - unfold valid_clock. cbn. lia.
  - exact H.
  - discriminate Hd.
Defined.

End TimeStamps.

(** ** Paths and their text *)

Section PathText.

Local Open Scope string_scope.

Lemma no_slash_rev_app a t :
  no_slash (String.rev_app a t) = no_slash a && no_slash t.
Proof.
  revert t. induction a as [|c a IH]; intros t; [reflexivity|].
  cbn [String.rev_app no_slash]. rewrite IH. cbn [no_slash].
  destruct (Ascii.eqb c Str.slash), (no_slash a), (no_slash t); reflexivity.
Qed.

Lemma split_go_pieces acc s :
  no_slash acc = true -> Forall (fun x => no_slash x = true) (Str.split_go acc s).
Proof.
  revert acc. induction s as [|c s IH]; intros acc Hacc.
  - cbn. constructor; [|constructor]. unfold String.rev.
    by rewrite no_slash_rev_app, Hacc.
  - cbn [Str.split_go]. destruct (Ascii.eqb c Str.slash) eqn:Hc.
    + constructor; [|by apply IH].
      unfold String.rev. by rewrite no_slash_rev_app, Hacc.
    + apply IH. cbn [no_slash]. by rewrite Hc, Hacc.
Qed.

Lemma parse_parts_proper s : Forall proper_part (Pathlib.parse_parts s).
Proof.
  unfold Pathlib.parse_parts, Str.split_slash.
  pose proof (split_go_pieces "" s eq_refl) as H.
  induction H as [|x l Hx _ IH]; [constructor|].
  cbn [List.filter]. destruct (Pathlib.keep_part x) eqn:Hk; [|exact IH].
  constructor; [by split | exact IH].
Qed.

(** Every path the script builds has proper components. *)
Lemma of_string_proper s : proper_path (Pathlib.of_string s).
Proof. unfold proper_path. rewrite parts_of_string. apply parse_parts_proper. Qed.

Lemma join_proper p key : proper_path p -> proper_path (Pathlib.join p key).
Proof.
  intros Hp. unfold Pathlib.join.
  pose proof (of_string_proper key) as Hk.
  destruct (anchor (Pathlib.of_string key)); [|exact Hk..].
  unfold proper_path. cbn [parts]. by apply Forall_app.
Qed.

Lemma proper_part_head x :
  proper_part x -> exists c x', x = String c x' /\ Ascii.eqb c Str.slash = false.
Proof.
  intros [Hk Hs]. destruct x as [|c x']; [discriminate Hk|].
  exists c, x'. split; [reflexivity|].
  cbn [no_slash] in Hs. apply andb_true_iff in Hs as [Hc _].
  by apply negb_true_iff.
Qed.

Lemma parse_parts_join ps :
  Forall proper_part ps -> Pathlib.parse_parts (Str.join "/" ps) = ps.
Proof.
  induction 1 as [|x l [Hk Hs] Hl IH]; [reflexivity|].
  destruct l as [|y l].
  - cbn [Str.join]. unfold Pathlib.parse_parts.
    rewrite (split_slash_no_slash _ Hs). cbn [List.filter]. by rewrite Hk.
  - change (Str.join "/" (x :: y :: l)) with (x ++ "/" ++ Str.join "/" (y :: l)).
    unfold Pathlib.parse_parts in *.
    rewrite (split_slash_app _ _ Hs). cbn [List.filter]. by rewrite Hk, IH.
Qed.

Lemma join_head ps :
  Forall proper_part ps ->
  Str.join "/" ps = ""
  \/ exists c u, Str.join "/" ps = String c u /\ Ascii.eqb c Str.slash = false.
Proof.
  intros H. destruct H as [|x l Hx Hl]; [by left|]. right.
  destruct (proper_part_head x Hx) as (c & x' & -> & Hc).
  destruct l; cbn [Str.join]; rewrite ?app_cons_string; eauto.
Qed.

Lemma of_string_str p : proper_path p -> Pathlib.of_string (Pathlib.str p) = p.
Proof.
  destruct p as [a ps]. unfold proper_path. cbn [parts]. intros Hp.
  pose proof (parse_parts_join ps Hp) as Hparse.
  unfold Pathlib.str. cbn [anchor parts].
  destruct a.
  - destruct ps as [|x l]; [reflexivity|].
    cbn [Pathlib.anchor_str]. rewrite app_nil_string.
    destruct (join_head (x :: l) Hp) as [He|(c & u & He & Hc)].
    + rewrite He in Hparse. discriminate Hparse.
    + rewrite of_string_relative; [by rewrite Hparse|].
      rewrite He. exact Hc.
  - assert (Hstr : Pathlib.anchor_str Root ++ Str.join "/" ps
                   = String Str.slash (Str.join "/" ps)) by (by destruct ps).
    rewrite Hstr. unfold Pathlib.of_string, Pathlib.splitroot.
    change (Ascii.eqb Str.slash Str.slash) with true. cbn match.
    destruct (join_head ps Hp) as [He|(c & u & He & Hc)].
    + rewrite He in *. by rewrite Hparse.
    + rewrite He in *. rewrite Hc. by rewrite Hparse.
  - assert (Hstr : Pathlib.anchor_str Root2 ++ Str.join "/" ps
                   = String Str.slash (String Str.slash (Str.join "/" ps)))
      by (by destruct ps).
    rewrite Hstr. unfold Pathlib.of_string, Pathlib.splitroot.
    change (Ascii.eqb Str.slash Str.slash) with true. cbn match.
    destruct (join_head ps Hp) as [He|(c & u & He & Hc)].
    + rewrite He in *. by rewrite Hparse.
    + rewrite He in *. rewrite Hc. by rewrite Hparse.
Qed.

(** X13: the text of a path denotes that path.  Writing out a path parsed
    from any text and parsing the result gives the same path; in particular
    the text of the archive path, which the run prints and hands to rclone,
    parses back to the path at which the archive was written. *)
Theorem path_text_round_trip (s b : string) (project : option string) (now : DateTime) :
  Pathlib.of_string (Pathlib.str (Pathlib.of_string s)) = Pathlib.of_string s
  /\ Pathlib.of_string (Pathlib.str (zip_path b project now)) = zip_path b project now.
Proof.
  split.
  - apply of_string_str, of_string_proper.
  - apply of_string_str. unfold zip_path, zip_dir.
    apply join_proper, join_proper, of_string_proper.
Qed.

End PathText.

(** ** Writing the archive: paths as texts *)

Section PosixpathFacts.

Local Open Scope string_scope.

Lemma proper_name_head x :
  proper_name x -> exists c x', x = String c x' /\ Ascii.eqb c Str.slash = false.
Proof. intros (Hk & Hs & _). by apply proper_part_head. Qed.

Lemma proper_name_relative x : proper_name x -> Str.starts_with_slash x = false.
Proof. intros H. by destruct (proper_name_head x H) as (c & x' & -> & Hc). Qed.

Lemma proper_name_no_end_slash x : proper_name x -> Posixpath.ends_with_slash x = false.
Proof.
  intros (_ & Hs & _). induction x as [|c x IH]; [reflexivity|].
  cbn [no_slash] in Hs. apply andb_true_iff in Hs as [Hc Hs].
  apply negb_true_iff in Hc. destruct x as [|c' x]; [exact Hc | by apply IH].
Qed.

Lemma ends_with_slash_app a b :
  b <> "" -> Posixpath.ends_with_slash (a ++ b) = Posixpath.ends_with_slash b.
Proof.
  intros Hb. induction a as [|c a IH]; [reflexivity|].
  rewrite app_cons_string. cbn [Posixpath.ends_with_slash].
  destruct (a ++ b) eqn:E; [|exact IH].
  destruct a; [by rewrite app_nil_string in E | discriminate E].
Qed.

Lemma ends_with_slash_slash a : Posixpath.ends_with_slash (a ++ "/") = true.
Proof. by rewrite ends_with_slash_app. Qed.

Lemma join_proper_name root x :
  proper_name x -> root <> "" -> Posixpath.join root x = sep_app root x.
Proof.
  intros Hx Hroot. unfold Posixpath.join, sep_app.
  rewrite (proper_name_relative x Hx).
  assert (String.eqb root "" = false) as -> by by apply String.eqb_neq.
  reflexivity.
Qed.

Lemma join_empty_root x : proper_name x -> Posixpath.join "" x = x.
Proof. intros Hx. unfold Posixpath.join. by rewrite (proper_name_relative x Hx). Qed.

Lemma join_nonempty root x : proper_name x -> Posixpath.join root x <> "".
Proof.
  intros Hx. destruct (proper_name_head x Hx) as (c & x' & -> & Hc).
  unfold Posixpath.join. cbn [Str.starts_with_slash]. rewrite Hc.
  destruct (_ || _); destruct root; done.
Qed.

Lemma starts_with_slash_app a b :
  Str.starts_with_slash a = true -> Str.starts_with_slash (a ++ b) = true.
Proof. destruct a; [done | by rewrite app_cons_string]. Qed.

Lemma anchored_absolute cwd path :
  Str.starts_with_slash cwd = true -> Str.starts_with_slash (anchored cwd path) = true.
Proof.
  intros Hcwd. unfold anchored.
  destruct (Str.starts_with_slash path) eqn:Hp; [exact Hp|].
  unfold Posixpath.join. rewrite Hp.
  destruct (_ || _); by apply starts_with_slash_app.
Qed.

Lemma starts_with_slash_sep_app a x :
  a <> "" -> Str.starts_with_slash (sep_app a x) = Str.starts_with_slash a.
Proof.
  intros Ha. unfold sep_app. destruct a as [|c a]; [done|].
  destruct (Posixpath.ends_with_slash _); by rewrite app_cons_string.
Qed.

Lemma sep_app_app_l a b x : b <> "" -> sep_app (a ++ b) x = a ++ sep_app b x.
Proof.
  intros Hb. unfold sep_app. rewrite (ends_with_slash_app a b Hb).
  destruct (Posixpath.ends_with_slash b); by rewrite !app_assoc_string.
Qed.

(** Joining a name to a path joins it to the anchored text. *)
Lemma anchored_join cwd root x :
  Str.starts_with_slash cwd = true -> proper_name x ->
  anchored cwd (Posixpath.join root x) = sep_app (anchored cwd root) x.
Proof.
  intros Hcwd Hx.
  assert (Hcwd' : cwd <> "") by (by destruct cwd).
  assert (Hcwde : String.eqb cwd "" = false) by by apply String.eqb_neq.
  pose proof (proper_name_relative x Hx) as Hrel.
  assert (Hxne : x <> "") by (by destruct (proper_name_head x Hx) as (? & ? & -> & _)).
  destruct root as [|c root].
  - rewrite (join_empty_root x Hx). unfold anchored. rewrite Hrel.
    cbn [Str.starts_with_slash]. unfold Posixpath.join at 2.
    cbn [Str.starts_with_slash]. rewrite Hcwde. cbn [orb].
    unfold Posixpath.join. rewrite Hrel, Hcwde. cbn [orb]. unfold sep_app.
    destruct (Posixpath.ends_with_slash cwd) eqn:He.
    + rewrite <- (app_nil_string ""), app_nil_string.
      assert (cwd ++ "" = cwd) as -> by (clear; induction cwd as [|? ? IH];
        [done | by rewrite app_cons_string, IH]).
      by rewrite He.
    + rewrite (ends_with_slash_app cwd ("/" ++ "")) by done.
      cbn. by rewrite !app_assoc_string.
  - rewrite (join_proper_name _ x Hx) by done.
    unfold anchored. rewrite (starts_with_slash_sep_app (String c root) x) by done.
    destruct (Str.starts_with_slash (String c root)) eqn:Habs; [reflexivity|].
    assert (Hrel2 : Str.starts_with_slash (sep_app (String c root) x) = false)
      by (by rewrite starts_with_slash_sep_app).
    unfold Posixpath.join. rewrite Habs, Hrel2, Hcwde. cbn [orb].
    assert (Hsne : sep_app (String c root) x <> "").
    { unfold sep_app. destruct (Posixpath.ends_with_slash _); by rewrite app_cons_string. }
    destruct (Posixpath.ends_with_slash cwd).
    + by rewrite sep_app_app_l.
    + rewrite (sep_app_app_l cwd ("/" ++ String c root)) by done.
      by rewrite (sep_app_app_l "/" (String c root)) by done.
Qed.

End PosixpathFacts.

Section NormpathFacts.

Local Open Scope string_scope.

Lemma split_go_app_any acc a b :
  Str.split_go acc (a ++ "/" ++ b) = (Str.split_go acc a ++ Str.split_go "" b)%list.
Proof.
  revert acc. induction a as [|c a IH]; intros acc; [reflexivity|].
  rewrite app_cons_string. cbn [Str.split_go].
  destruct (Ascii.eqb c Str.slash); by rewrite IH.
Qed.

Lemma last_split_ends_slash acc a :
  Posixpath.ends_with_slash a = true -> List.last (Str.split_go acc a) "" = "".
Proof.
  revert acc. induction a as [|c a IH]; intros acc He; [discriminate He|].
  cbn [Str.split_go]. destruct a as [|c' a].
  - cbn [Posixpath.ends_with_slash] in He. rewrite He. reflexivity.
  - assert (He' : Posixpath.ends_with_slash (String c' a) = true) by exact He.
    destruct (Ascii.eqb c Str.slash).
    + rewrite last_cons_nonempty by apply split_go_nonempty. by apply IH.
    + by apply IH.
Qed.

Lemma removelast_last_string (l : list string) :
  l <> [] -> l = (List.removelast l ++ [List.last l ""])%list.
Proof. intros H. by apply List.app_removelast_last. Qed.

Lemma proper_name_step i comps x :
  proper_name x -> Posixpath.norm_step i comps x = (comps ++ [x])%list.
Proof.
  intros (Hk & _ & Hdd). unfold Posixpath.norm_step.
  unfold Pathlib.keep_part in Hk. apply andb_true_iff in Hk as [H1 H2].
  apply negb_true_iff in H1. apply negb_true_iff in H2. rewrite H1, H2. cbn [orb].
  assert (String.eqb x ".." = false) as -> by by apply String.eqb_neq.
  reflexivity.
Qed.

Lemma empty_step i comps : Posixpath.norm_step i comps "" = comps.
Proof. reflexivity. Qed.

(** The pieces of a text extended by a name, as the loop of [normpath] sees
    them. *)
Lemma fold_norm_sep_app i a x :
  proper_name x ->
  fold_left (Posixpath.norm_step i) (Str.split_slash (sep_app a x)) []
  = (fold_left (Posixpath.norm_step i) (Str.split_slash a) [] ++ [x])%list.
Proof.
  intros Hx. pose proof Hx as (_ & Hs & _).
  unfold sep_app, Str.split_slash.
  destruct (Posixpath.ends_with_slash a) eqn:He.
  - rewrite (split_go_tail _ _ _ Hs), (last_split_ends_slash _ _ He), app_nil_string.
    rewrite fold_left_app. cbn [fold_left]. rewrite (proper_name_step _ _ _ Hx).
    f_equal.
    rewrite (removelast_last_string (Str.split_go "" a)) at 2
      by apply split_go_nonempty.
    rewrite fold_left_app, (last_split_ends_slash _ _ He). reflexivity.
  - rewrite split_go_app_any, (split_go_no_slash _ _ Hs), fold_left_app.
    cbn [fold_left String.rev_app]. by rewrite (proper_name_step _ _ _ Hx).
Qed.

Lemma initial_slashes_sep_app a x :
  proper_name x -> a <> "" ->
  Posixpath.initial_slashes (sep_app a x) = Posixpath.initial_slashes a.
Proof.
  intros Hx Ha. destruct (proper_name_head x Hx) as (c & x' & -> & Hc).
  unfold sep_app.
  destruct a as [|c1 [|c2 [|c3 a]]]; [done| | |].
  - cbn [Posixpath.ends_with_slash].
    destruct (Ascii.eqb c1 Str.slash) eqn:H1;
      rewrite !app_cons_string, ?app_nil_string;
      cbn [Posixpath.initial_slashes]; rewrite H1, ?Hc; reflexivity.
  - cbn [Posixpath.ends_with_slash].
    destruct (Ascii.eqb c2 Str.slash) eqn:H2;
      rewrite !app_cons_string, ?app_nil_string;
      cbn [Posixpath.initial_slashes];
      destruct (Ascii.eqb c1 Str.slash) eqn:H1; rewrite ?H2, ?Hc; reflexivity.
  - destruct (Posixpath.ends_with_slash _);
      rewrite !app_cons_string; reflexivity.
Qed.

Lemma norm_comps_sep_app a x :
  proper_name x -> a <> "" ->
  Posixpath.norm_comps (sep_app a x) = (Posixpath.norm_comps a ++ [x])%list.
Proof.
  intros Hx Ha. unfold Posixpath.norm_comps.
  rewrite (initial_slashes_sep_app a x Hx Ha). by apply fold_norm_sep_app.
Qed.

Lemma Forall_removelast {A} (P : A -> Prop) (l : list A) :
  Forall P l -> Forall P (List.removelast l).
Proof.
  induction 1 as [|x l Hx Hl IH]; [constructor|].
  destruct l; [constructor|]. cbn. constructor; [exact Hx | exact IH].
Qed.

Lemma norm_step_ok i comps comp :
  Forall piece_ok comps -> no_slash comp = true ->
  Forall piece_ok (Posixpath.norm_step i comps comp).
Proof.
  intros Hc Hs. unfold Posixpath.norm_step.
  destruct (String.eqb comp "") eqn:He; [exact Hc|]. cbn [orb].
  destruct (String.eqb comp "."); [exact Hc|].
  assert (Hok : piece_ok comp) by (split; [by apply String.eqb_neq | exact Hs]).
  destruct (_ || _ || _).
  - apply Forall_app. split; [exact Hc | by constructor].
  - destruct comps; [exact Hc | by apply Forall_removelast].
Qed.

Lemma fold_norm_ok i l comps :
  Forall piece_ok comps -> Forall (fun x => no_slash x = true) l ->
  Forall piece_ok (fold_left (Posixpath.norm_step i) l comps).
Proof.
  intros Hc Hl. revert comps Hc. induction Hl as [|x l Hx Hl IH]; intros comps Hc.
  - exact Hc.
  - cbn [fold_left]. apply IH. by apply norm_step_ok.
Qed.

Lemma norm_comps_ok path : Forall piece_ok (Posixpath.norm_comps path).
Proof.
  unfold Posixpath.norm_comps. apply fold_norm_ok; [constructor|].
  by apply split_go_pieces.
Qed.

Lemma pieces_slash c s :
  Ascii.eqb c Str.slash = true -> Posixpath.pieces (String c s) = Posixpath.pieces s.
Proof.
  intros Hc. unfold Posixpath.pieces, Str.split_slash. cbn [Str.split_go].
  rewrite Hc. reflexivity.
Qed.

Lemma pieces_slashes k s : Posixpath.pieces (Posixpath.slashes k ++ s) = Posixpath.pieces s.
Proof.
  induction k as [|k IH]; [reflexivity|].
  cbn [Posixpath.slashes]. rewrite app_cons_string, pieces_slash; [exact IH|].
  reflexivity.
Qed.

Lemma pieces_join comps :
  Forall piece_ok comps -> Posixpath.pieces (Str.join "/" comps) = comps.
Proof.
  induction 1 as [|x l [Hne Hs] Hl IH]; [reflexivity|].
  assert (Hx : negb (String.eqb x "") = true)
    by (apply negb_true_iff; by apply String.eqb_neq).
  destruct l as [|y l].
  - cbn [Str.join]. unfold Posixpath.pieces.
    rewrite (split_slash_no_slash _ Hs). cbn [List.filter]. by rewrite Hx.
  - change (Str.join "/" (x :: y :: l)) with (x ++ "/" ++ Str.join "/" (y :: l)).
    unfold Posixpath.pieces in *.
    rewrite (split_slash_app _ _ Hs). cbn [List.filter]. by rewrite Hx, IH.
Qed.

(** The pieces of the normal form of an absolute text. *)
Lemma pieces_normpath path :
  Str.starts_with_slash path = true ->
  Posixpath.pieces (Posixpath.normpath path) = Posixpath.norm_comps path.
Proof.
  intros Habs. unfold Posixpath.normpath.
  destruct path as [|c path]; [discriminate Habs|].
  cbn [Str.starts_with_slash] in Habs.
  assert (String.eqb (String c path) "" = false) as -> by reflexivity.
  assert (Hi : exists k, Posixpath.initial_slashes (String c path) = S k).
  { cbn [Posixpath.initial_slashes]. rewrite Habs.
    destruct path as [|c2 [|c3 path]]; repeat (destruct (Ascii.eqb _ _)); eauto. }
  destruct Hi as [k Hk]. cbv zeta. rewrite Hk.
  cbn [Posixpath.slashes]. rewrite app_cons_string.
  assert (String.eqb (String Str.slash
            (Posixpath.slashes k ++ Str.join "/" (Posixpath.norm_comps (String c path))))
            "" = false) as -> by reflexivity.
  rewrite pieces_slash by reflexivity.
  rewrite pieces_slashes. apply pieces_join, norm_comps_ok.
Qed.

(** Joining a name to a path adds one piece to its absolute form. *)
Lemma abspath_pieces_join cwd root x :
  Str.starts_with_slash cwd = true -> proper_name x ->
  Posixpath.pieces (Posixpath.abspath cwd (Posixpath.join root x))
  = (Posixpath.pieces (Posixpath.abspath cwd root) ++ [x])%list.
Proof.
  intros Hcwd Hx.
  change (Posixpath.abspath cwd (Posixpath.join root x))
    with (Posixpath.normpath (anchored cwd (Posixpath.join root x))).
  change (Posixpath.abspath cwd root) with (Posixpath.normpath (anchored cwd root)).
  pose proof (anchored_absolute cwd root Hcwd) as Habs.
  rewrite (anchored_join cwd root x Hcwd Hx).
  assert (Hne : anchored cwd root <> "") by (by destruct (anchored cwd root)).
  rewrite !pieces_normpath; [by apply norm_comps_sep_app | exact Habs |].
  by rewrite starts_with_slash_sep_app.
Qed.

End NormpathFacts.

(** ** Writing the archive: the names of the entries *)

Section ArchiveEntries.

Local Open Scope string_scope.

Lemma common_prefix_len_app (l c : list string) :
  Posixpath.common_prefix_len l (l ++ c)%list = length l.
Proof.
  induction l as [|x l IH]; [by destruct c|].
  cbn. by rewrite String.eqb_refl, IH.
Qed.

Lemma skipn_length_app {A} (l c : list A) : skipn (length l) (l ++ c)%list = c.
Proof. induction l as [|x l IH]; [reflexivity | exact IH]. Qed.

Lemma proper_name_nonempty x : proper_name x -> x <> "".
Proof. intros H. by destruct (proper_name_head x H) as (? & ? & -> & _). Qed.

Lemma fold_join acc rest :
  acc <> "" -> Posixpath.ends_with_slash acc = false -> Forall proper_name rest ->
  fold_left Posixpath.join rest acc
  = match rest with [] => acc | _ => acc ++ "/" ++ Str.join "/" rest end.
Proof.
  intros Hne He Hrest. revert acc Hne He.
  induction Hrest as [|b r Hb Hr IH]; intros acc Hne He; [reflexivity|].
  cbn [fold_left]. rewrite (join_proper_name acc b Hb Hne). unfold sep_app. rewrite He.
  rewrite IH.
  - destruct r as [|b' r]; [reflexivity|].
    change (Str.join "/" (b :: b' :: r)) with (b ++ "/" ++ Str.join "/" (b' :: r)).
    by rewrite !app_assoc_string.
  - by destruct acc.
  - rewrite ends_with_slash_app by (intros H; by destruct (proper_name_nonempty b Hb)).
    rewrite ends_with_slash_app by by apply proper_name_nonempty.
    by apply proper_name_no_end_slash.
Qed.

Lemma join_all_proper chain :
  Forall proper_name chain -> Posixpath.join_all chain = Str.join "/" chain.
Proof.
  intros H. destruct H as [|x r Hx Hr]; [reflexivity|].
  cbn [Posixpath.join_all].
  rewrite fold_join; [| by apply proper_name_nonempty
                      | by apply proper_name_no_end_slash | exact Hr].
  by destruct r.
Qed.

(** The relative name of a path whose absolute form extends that of the
    start by proper names. *)
Lemma relpath_below cwd path start chain :
  path <> "" -> chain <> [] -> Forall proper_name chain ->
  Posixpath.pieces (Posixpath.abspath cwd path)
  = (Posixpath.pieces (Posixpath.abspath cwd start) ++ chain)%list ->
  relpath cwd path start = Ok (Str.join "/" chain).
Proof.
  intros Hpath Hne Hchain Hp. unfold relpath.
  assert (String.eqb path "" = false) as -> by by apply String.eqb_neq.
  cbv zeta. rewrite Hp, common_prefix_len_app, Nat.sub_diag, skipn_length_app.
  cbn [repeat app]. rewrite (join_all_proper chain Hchain).
  by destruct chain.
Qed.

Lemma proper_tree_files d : proper_tree d -> Forall proper_name (file_names d).
Proof.
  induction d as [|n r IH|n c _ r IH]; cbn.
  - constructor.
  - intros [Hn Hr]. constructor; [exact Hn | by apply IH].
  - intros (_ & _ & Hr). by apply IH.
Qed.

Variables (cwd source_dir : string).
Hypothesis cwd_absolute : Str.starts_with_slash cwd = true.

Let top_pieces := Posixpath.pieces (Posixpath.abspath cwd source_dir).

(** The files of one directory. *)
Lemma archive_files_names root pre files :
  Posixpath.pieces (Posixpath.abspath cwd root) = (top_pieces ++ pre)%list ->
  Forall proper_name pre -> Forall proper_name files ->
  archive_files cwd source_dir root files
  = Ok (map (fun f => (Posixpath.join root f, Str.join "/" (pre ++ [f])%list)) files).
Proof.
  intros Hroot Hpre Hfiles. induction Hfiles as [|f files Hf Hfs IH]; [reflexivity|].
  cbn [archive_files map]. cbv zeta.
  rewrite (relpath_below cwd _ source_dir (pre ++ [f])%list).
  - by rewrite IH.
  - by apply join_nonempty.
  - by destruct pre.
  - apply Forall_app. split; [exact Hpre | by constructor].
  - rewrite (abspath_pieces_join cwd root f cwd_absolute Hf), Hroot.
    by rewrite <- app_assoc.
Qed.

Lemma archive_dirs_app l1 l2 e1 e2 :
  archive_dirs cwd source_dir l1 = Ok e1 -> archive_dirs cwd source_dir l2 = Ok e2 ->
  archive_dirs cwd source_dir (l1 ++ l2)%list = Ok (e1 ++ e2)%list.
Proof.
  revert e1. induction l1 as [|[root files] l1 IH]; intros e1 H1 H2.
  - injection H1 as <-. exact H2.
  - cbn [app archive_dirs] in *.
    destruct (archive_files cwd source_dir root files) as [l|]; [|discriminate H1].
    destruct (archive_dirs cwd source_dir l1) as [l'|]; [|discriminate H1].
    injection H1 as <-. rewrite (IH l' eq_refl H2). by rewrite <- app_assoc.
Qed.

(** The directories below the top. *)
Lemma archive_below_names d :
  proper_tree d ->
  forall root pre,
    Posixpath.pieces (Posixpath.abspath cwd root) = (top_pieces ++ pre)%list ->
    Forall proper_name pre ->
    exists es,
      archive_dirs cwd source_dir (walk_below root d) = Ok es
      /\ map snd es = map (fun ch => Str.join "/" (pre ++ ch)%list) (below_files d).
Proof.
  induction d as [|n r IH|n c IHc r IHr]; intros Hd root pre Hroot Hpre.
  - exists []. done.
  - destruct Hd as [_ Hr]. cbn [walk_below below_files]. by apply IH.
  - destruct Hd as (Hn & Hc & Hr). cbn [walk_below below_files].
    assert (Hroot' : Posixpath.pieces (Posixpath.abspath cwd (Posixpath.join root n))
                     = (top_pieces ++ (pre ++ [n]))%list).
    { rewrite (abspath_pieces_join cwd root n cwd_absolute Hn), Hroot.
      by rewrite <- app_assoc. }
    assert (Hpre' : Forall proper_name (pre ++ [n])%list).
    { apply Forall_app. split; [exact Hpre | by constructor]. }
    destruct (IHc Hc _ _ Hroot' Hpre') as (ec & Hec & Hnc).
    destruct (IHr Hr _ _ Hroot Hpre) as (er & Her & Hnr).
    pose proof (archive_files_names _ _ _ Hroot' Hpre' (proper_tree_files c Hc)) as Hfiles.
    eexists. split.
    + apply archive_dirs_app; [|exact Her].
      cbn [archive_dirs]. rewrite Hfiles, Hec. reflexivity.
    + rewrite !map_app, Hnc, Hnr, !map_map. cbn [snd].
      f_equal. f_equal.
      * apply map_ext. intros f. by rewrite <- app_assoc.
      * apply map_ext. intros ch. by rewrite <- app_assoc.
Qed.

Lemma archive_tree_names d :
  proper_tree d ->
  exists es,
    archive_dirs cwd source_dir (walk_tree source_dir (Some d)) = Ok es
    /\ map snd es = map (Str.join "/") (tree_files d).
Proof.
  intros Hd.
  destruct (archive_below_names d Hd source_dir []) as (eb & Heb & Hnb).
  { by rewrite app_nil_r. }
  { constructor. }
  pose proof (archive_files_names source_dir [] (file_names d)) as Hfiles.
  rewrite app_nil_r in Hfiles.
  specialize (Hfiles eq_refl (List.Forall_nil _) (proper_tree_files d Hd)).
  eexists. split.
  - cbn [walk_tree archive_dirs]. rewrite Hfiles, Heb. reflexivity.
  - unfold tree_files. rewrite !map_app, Hnb, !map_map. cbn [snd app].
    f_equal.
Qed.

End ArchiveEntries.



Section StoredNames.

Local Open Scope string_scope.

Lemma split_slash_join chain :
  chain <> [] -> Forall (fun x => no_slash x = true) chain ->
  Str.split_slash (Str.join "/" chain) = chain.
Proof.
  intros Hne H. induction H as [|x l Hx Hl IH]; [done|].
  destruct l as [|y l].
  - cbn [Str.join]. by apply split_slash_no_slash.
  - change (Str.join "/" (x :: y :: l)) with (x ++ "/" ++ Str.join "/" (y :: l)).
    rewrite (split_slash_app _ _ Hx). by rewrite IH.
Qed.

Lemma fold_norm_proper i chain acc :
  Forall proper_name chain ->
  fold_left (Posixpath.norm_step i) chain acc = (acc ++ chain)%list.
Proof.
  intros H. revert acc. induction H as [|x l Hx Hl IH]; intros acc.
  - by rewrite app_nil_r.
  - cbn [fold_left]. rewrite (proper_name_step _ _ _ Hx), IH. by rewrite <- app_assoc.
Qed.

Lemma join_proper_head chain :
  chain <> [] -> Forall proper_name chain ->
  exists c u, Str.join "/" chain = String c u /\ Ascii.eqb c Str.slash = false.
Proof.
  intros Hne H. destruct H as [|x l Hx Hl]; [done|].
  destruct (proper_name_head x Hx) as (c & x' & -> & Hc).
  destruct l; cbn [Str.join]; rewrite ?app_cons_string; eauto.
Qed.

(** A relative name made of proper names is its own normal form. *)
Lemma stored_name_proper chain :
  chain <> [] -> Forall proper_name chain ->
  stored_name (Str.join "/" chain) = Str.join "/" chain.
Proof.
  intros Hne H.
  destruct (join_proper_head chain Hne H) as (c & u & Hj & Hc).
  assert (Hns : Forall (fun x => no_slash x = true) chain).
  { eapply Forall_impl; [exact H|]. by intros x (_ & ? & _). }
  unfold stored_name, Posixpath.normpath, Posixpath.norm_comps.
  rewrite (split_slash_join chain Hne Hns), (fold_norm_proper _ chain [] H).
  cbn [app]. rewrite Hj. cbn [String.eqb Posixpath.initial_slashes]. rewrite Hc.
  cbn [Posixpath.slashes]. rewrite app_nil_string.
  rewrite <- Hj at 1. rewrite Hj. cbn [String.eqb lstrip_slash]. by rewrite Hc.
Qed.

Lemma below_files_proper d :
  proper_tree d -> Forall (fun ch => ch <> [] /\ Forall proper_name ch) (below_files d).
Proof.
  induction d as [|n r IH|n c IHc r IHr]; cbn [proper_tree below_files].
  - constructor.
  - intros [_ Hr]. by apply IH.
  - intros (Hn & Hc & Hr). apply Forall_app. split; [apply Forall_app; split|].
    + apply Forall_forall. intros ch Hin. apply list_elem_of_fmap in Hin as (f & -> & Hf).
      split; [done|]. constructor; [exact Hn|]. constructor; [|constructor].
      pose proof (proper_tree_files c Hc) as Hfiles.
      rewrite Forall_forall in Hfiles. by apply Hfiles.
    + apply Forall_forall. intros ch Hin. apply list_elem_of_fmap in Hin as (ch' & -> & Hch).
      specialize (IHc Hc). rewrite Forall_forall in IHc.
      destruct (IHc ch' Hch) as [_ Hp]. split; [done | by constructor].
    + by apply IHr.
Qed.

Lemma tree_files_proper d :
  proper_tree d -> Forall (fun ch => ch <> [] /\ Forall proper_name ch) (tree_files d).
Proof.
  intros Hd. unfold tree_files. apply Forall_app. split; [|by apply below_files_proper].
  apply Forall_forall. intros ch Hin. apply list_elem_of_fmap in Hin as (f & -> & Hf).
  split; [done|]. constructor; [|constructor].
  pose proof (proper_tree_files d Hd) as Hfiles.
  rewrite Forall_forall in Hfiles. by apply Hfiles.
Qed.

(** X15: the names stored in the archive are the names handed to
    [zipf.write], unchanged by the normalisation of the zip library: none
    begins with a slash and none has a [..] piece, so unpacking the archive
    writes only below the directory it is unpacked into. *)
Theorem stored_names_stay_inside (cwd source_dir : string) (d : Entries)
    (entries : list (string * string)) :
  Str.starts_with_slash cwd = true -> proper_tree d ->
  archive_entries cwd (Some source_dir) (Some d) = Ok entries ->
  forall full_path arcname, (full_path, arcname) ∈ entries ->
    stored_name arcname = arcname
    /\ Str.starts_with_slash arcname = false
    /\ ~ In ".." (Str.split_slash arcname).
Proof.
  intros Hcwd Hd Hrun full_path arcname Hin.
  destruct (archive_tree_names cwd source_dir Hcwd d Hd) as (es & Hes & Hnames).
  unfold archive_entries in Hrun. rewrite Hes in Hrun. injection Hrun as <-.
  assert (Ha : arcname ∈ map snd es).
  { apply list_elem_of_fmap. by exists (full_path, arcname). }
  rewrite Hnames in Ha. apply list_elem_of_fmap in Ha as (ch & -> & Hch).
  pose proof (tree_files_proper d Hd) as Hall. rewrite Forall_forall in Hall.
  destruct (Hall ch Hch) as [Hne Hp].
  split; [by apply stored_name_proper|]. split.
  - by destruct (join_proper_head ch Hne Hp) as (c & u & -> & Hc).
  - assert (Hns : Forall (fun x => no_slash x = true) ch).
    { eapply Forall_impl; [exact Hp|]. by intros x (_ & ? & _). }
    rewrite (split_slash_join ch Hne Hns). intros Hdd.
    rewrite Forall_forall in Hp. apply list_elem_of_In in Hdd.
    by destruct (Hp _ Hdd) as (_ & _ & ?).
Qed.

Lemma stored_names_stay_inside_witness :
  stored_name "css/site.css" = "css/site.css".
Proof.
  assert (Hrun : archive_entries "/home/u" (Some "/srv/www") (Some sample_tree)
                 = Ok [("/srv/www/index.html", "index.html");
                       ("/srv/www/app.py", "app.py");
                       ("/srv/www/css/site.css", "css/site.css")])
    by (vm_compute; reflexivity).
  apply (stored_names_stay_inside "/home/u" "/srv/www" sample_tree _ eq_refl
           ltac:(cbn; unfold proper_name; repeat split; (reflexivity || discriminate))
           Hrun "/srv/www/css/site.css" "css/site.css").
  set_solver.
Defined.

End StoredNames.
